(** * The DevTools workspace file-system bridge of CommonWebContentsDelegate

    A shallow embedding of the DevTools part of
    [atom::CommonWebContentsDelegate] (the second half of
    atom/common/javascript_bindings.cc, from its include of
    common_web_contents_delegate.h on):
    the persisted path registry, the indexing job tracker and the
    save/append file cache, together with the collaborators the delegate
    calls (isolated context, child-process security policy, preference
    store, file picker, indexer, file task runner, DevTools front end).

    The delegate is a record of its member variables and of the state of
    its collaborators; every member function is a function
    [Delegate -> option Delegate], where [None] stands for a null pointer
    being dereferenced or an empty vector being indexed.  Calls into
    collaborators are appended to one chronological list, [calls].  What
    the front end and the collaborators can do to the delegate is an
    [Event]; [step] runs one (and is [None] also for an event that cannot
    happen, such as a callback of a picker that is not open). *)

From Stdlib Require Import ZArith String.
From stdpp Require Import base option gmap strings list sorting pretty.

Open Scope string_scope.
Open Scope list_scope.

(** ** Values and collaborator calls *)

(** [base::FilePath], through [FromUTF8Unsafe] / [AsUTF8Unsafe]. *)
Abbreviation FilePath := string (only parsing).

(** The part of [base::Value] the delegate builds or inspects. *)
#[local] Unset Elimination Schemes.
Inductive Value :=
| IntValue (n : Z)
| StringValue (s : string)
| ListValue (l : list Value)
| DictionaryValue (d : list (string * Value)).
#[local] Set Elimination Schemes.

Definition is_string (v : Value) : bool :=
  match v with StringValue _ => true | _ => false end.

Definition GetString (v : Value) : string :=
  match v with StringValue s => s | _ => "" end.

Inductive Capability :=
| ReadFileSystem
| WriteFileSystem
| CreateFileForFileSystem
| DeleteFromFileSystem.

(** A call into a collaborator.  [CallClient] carries, besides the function
    name and its non-null arguments, the request ids that the job tracker
    holds at the moment of the call. *)
Inductive Call :=
| RegisterFileSystemForPath (path : FilePath) (file_system_id : nat)
| RevokeFileSystemByPath (path : FilePath)
| Grant (c : Capability) (renderer_id : Z) (file_system_id : nat)
| GrantReadFile (renderer_id : Z) (path : FilePath)
| CallClient (name : string) (args : list Value) (tracked : gset Z)
| WriteFile (path : FilePath) (content : string)
| AppendFile (path : FilePath) (content : string).

(** ** The delegate and its collaborators *)

Record WebContents := {
  renderer_id : Z;          (* GetRenderViewHost()->GetProcess()->GetID() *)
  origin : string           (* GetURL().GetOrigin() *)
}.

Record InspectableWebContents := {
  devtools_web_contents : option WebContents
}.

Record FileSystem := {
  type : string;
  file_system_name : string;
  root_url : string;
  file_system_path : string
}.

(** A job object of the indexer: the arguments bound into its three
    callbacks by [DevToolsIndexPath], and whether [Stop] was called on it. *)
Record FileSystemIndexingJob := {
  bound_request_id : Z;
  bound_path : string;
  stopped : bool
}.

(** A pending search of the indexer, with the arguments bound into its
    completion callback. *)
Record PendingSearch := {
  search_request_id : Z;
  search_path : string;
  search_query : string
}.

(** What [file_task_runner_] runs, and the reply bound with it. *)
Inductive FileTask :=
| WriteToFileTask (path : FilePath) (content : string)
| AppendToFileTask (path : FilePath) (content : string).

Inductive Reply :=
| OnDevToolsSaveToFileReply (url : string)
| OnDevToolsAppendToFileReply (url : string).

(** An open [extensions::FileEntryPicker] with the arguments bound into its
    two callbacks. *)
Inductive Picker :=
| SaveAsPicker (url content : string)      (* SELECT_SAVEAS_FILE *)
| FolderPicker (type : string).            (* SELECT_FOLDER *)

Record Delegate := mkDelegate {
  (* members of CommonWebContentsDelegate *)
  web_contents_ : option InspectableWebContents;
  saved_files_ : gmap string string;
  devtools_indexing_jobs_ : gmap Z nat;
  (* preference store: the kDevToolsFileSystemPaths dictionary *)
  prefs : option (gmap string Value);
  (* isolated context: every identifier handed out so far, in order, with
     the path it stands for unless revoked *)
  isolated : list (option string);
  (* security policy: files granted for reading, per renderer *)
  read_grants : list (Z * string);
  (* indexer *)
  indexer_jobs : list FileSystemIndexingJob;
  searches : list PendingSearch;
  (* file task runner and the replies it posts back *)
  file_tasks : list (FileTask * Reply);
  replies : list Reply;
  (* open file pickers *)
  pickers : list Picker;
  (* every call into a collaborator, oldest first *)
  calls : list Call
}.

Definition set_saved_files (f : gmap string string → gmap string string)
    (st : Delegate) : Delegate :=
  mkDelegate (web_contents_ st) (f (saved_files_ st))
    (devtools_indexing_jobs_ st) (prefs st) (isolated st)
    (read_grants st) (indexer_jobs st) (searches st) (file_tasks st)
    (replies st) (pickers st) (calls st).

Definition set_jobs (f : gmap Z nat → gmap Z nat) (st : Delegate) : Delegate :=
  mkDelegate (web_contents_ st) (saved_files_ st)
    (f (devtools_indexing_jobs_ st)) (prefs st) (isolated st)
    (read_grants st) (indexer_jobs st) (searches st) (file_tasks st)
    (replies st) (pickers st) (calls st).

Definition set_prefs (f : option (gmap string Value) → option (gmap string Value))
    (st : Delegate) : Delegate :=
  mkDelegate (web_contents_ st) (saved_files_ st)
    (devtools_indexing_jobs_ st) (f (prefs st)) (isolated st)
    (read_grants st) (indexer_jobs st) (searches st) (file_tasks st)
    (replies st) (pickers st) (calls st).

Definition set_isolated (f : list (option string) → list (option string))
    (st : Delegate) : Delegate :=
  mkDelegate (web_contents_ st) (saved_files_ st)
    (devtools_indexing_jobs_ st) (prefs st) (f (isolated st))
    (read_grants st) (indexer_jobs st) (searches st) (file_tasks st)
    (replies st) (pickers st) (calls st).

Definition set_read_grants (f : list (Z * string) → list (Z * string))
    (st : Delegate) : Delegate :=
  mkDelegate (web_contents_ st) (saved_files_ st)
    (devtools_indexing_jobs_ st) (prefs st) (isolated st)
    (f (read_grants st)) (indexer_jobs st) (searches st) (file_tasks st)
    (replies st) (pickers st) (calls st).

Definition set_indexer_jobs
    (f : list FileSystemIndexingJob → list FileSystemIndexingJob)
    (st : Delegate) : Delegate :=
  mkDelegate (web_contents_ st) (saved_files_ st)
    (devtools_indexing_jobs_ st) (prefs st) (isolated st)
    (read_grants st) (f (indexer_jobs st)) (searches st) (file_tasks st)
    (replies st) (pickers st) (calls st).

Definition set_searches (f : list PendingSearch → list PendingSearch)
    (st : Delegate) : Delegate :=
  mkDelegate (web_contents_ st) (saved_files_ st)
    (devtools_indexing_jobs_ st) (prefs st) (isolated st)
    (read_grants st) (indexer_jobs st) (f (searches st)) (file_tasks st)
    (replies st) (pickers st) (calls st).

Definition set_file_tasks
    (f : list (FileTask * Reply) → list (FileTask * Reply))
    (st : Delegate) : Delegate :=
  mkDelegate (web_contents_ st) (saved_files_ st)
    (devtools_indexing_jobs_ st) (prefs st) (isolated st)
    (read_grants st) (indexer_jobs st) (searches st) (f (file_tasks st))
    (replies st) (pickers st) (calls st).

Definition set_replies (f : list Reply → list Reply)
    (st : Delegate) : Delegate :=
  mkDelegate (web_contents_ st) (saved_files_ st)
    (devtools_indexing_jobs_ st) (prefs st) (isolated st)
    (read_grants st) (indexer_jobs st) (searches st) (file_tasks st)
    (f (replies st)) (pickers st) (calls st).

Definition set_pickers (f : list Picker → list Picker)
    (st : Delegate) : Delegate :=
  mkDelegate (web_contents_ st) (saved_files_ st)
    (devtools_indexing_jobs_ st) (prefs st) (isolated st)
    (read_grants st) (indexer_jobs st) (searches st) (file_tasks st)
    (replies st) (f (pickers st)) (calls st).

Definition record (c : Call) (st : Delegate) : Delegate :=
  mkDelegate (web_contents_ st) (saved_files_ st)
    (devtools_indexing_jobs_ st) (prefs st) (isolated st)
    (read_grants st) (indexer_jobs st) (searches st) (file_tasks st)
    (replies st) (pickers st) (calls st ++ [c]).

(** ** Collaborators *)

(** [IsolatedContext::RegisterFileSystemForPath]: mints an identifier never
    handed out before and registers [path] under it. *)
Definition IsolatedContext_RegisterFileSystemForPath (path : FilePath)
    (st : Delegate) : nat * Delegate :=
  let file_system_id := length (isolated st) in
  (file_system_id,
   record (RegisterFileSystemForPath path file_system_id)
     (set_isolated (λ l, l ++ [Some path]) st)).

(** [IsolatedContext::RevokeFileSystemByPath]: drops every identifier
    registered for [path]. *)
Definition IsolatedContext_RevokeFileSystemByPath (path : FilePath)
    (st : Delegate) : Delegate :=
  record (RevokeFileSystemByPath path)
    (set_isolated (fmap (λ e, if decide (e = Some path) then None else e)) st).

Definition CanReadFile (renderer : Z) (path : FilePath) (st : Delegate) : bool :=
  bool_decide ((renderer, path) ∈ read_grants st).

Definition Policy_GrantReadFile (renderer : Z) (path : FilePath)
    (st : Delegate) : Delegate :=
  record (GrantReadFile renderer path)
    (set_read_grants (λ l, l ++ [(renderer, path)]) st).

(** [storage::GetIsolatedFileSystemName] and
    [storage::GetIsolatedFileSystemRootURIString], rendered as strings. *)
Definition GetIsolatedFileSystemName (org : string) (file_system_id : nat)
    : string :=
  org +:+ ":Isolated_" +:+ pretty file_system_id.

Definition GetIsolatedFileSystemRootURIString (org : string)
    (file_system_id : nat) (root_name : string) : string :=
  "filesystem:" +:+ org +:+ "isolated/" +:+ pretty file_system_id
    +:+ "/" +:+ root_name +:+ "/".

(** [DevToolsFileSystemIndexer::IndexPath]: creates a job object holding the
    three callbacks, here the arguments bound into them. *)
Definition Indexer_IndexPath (request_id : Z) (path : string)
    (st : Delegate) : nat * Delegate :=
  (length (indexer_jobs st),
   set_indexer_jobs (λ l, l ++ [Build_FileSystemIndexingJob request_id path false]) st).

(** [FileSystemIndexingJob::Stop]. *)
Definition Job_Stop (job : nat) (st : Delegate) : Delegate :=
  set_indexer_jobs
    (alter (λ j, Build_FileSystemIndexingJob (bound_request_id j) (bound_path j) true) job)
    st.

Definition Indexer_SearchInPath (request_id : Z) (path query : string)
    (st : Delegate) : Delegate :=
  set_searches (λ l, l ++ [Build_PendingSearch request_id path query]) st.

(** [file_task_runner_->PostTaskAndReply]. *)
Definition PostTaskAndReply (task : FileTask) (reply : Reply)
    (st : Delegate) : Delegate :=
  set_file_tasks (λ q, q ++ [(task, reply)]) st.

(** [new extensions::FileEntryPicker(...)]. *)
Definition FileEntryPicker (p : Picker) (st : Delegate) : Delegate :=
  set_pickers (λ l, l ++ [p]) st.

(** ** The anonymous namespace *)

Definition kRootName : string := "<root>".

Definition RegisterFileSystem (web_contents : option WebContents)
    (path : FilePath) (st : Delegate) : option (nat * Delegate) :=
  let '(file_system_id, st) := IsolatedContext_RegisterFileSystemForPath path st in
  wc ← web_contents;
  let renderer := renderer_id wc in
  let st := record (Grant ReadFileSystem renderer file_system_id) st in
  let st := record (Grant WriteFileSystem renderer file_system_id) st in
  let st := record (Grant CreateFileForFileSystem renderer file_system_id) st in
  let st := record (Grant DeleteFromFileSystem renderer file_system_id) st in
  let st := if CanReadFile renderer path st then st
            else Policy_GrantReadFile renderer path st in
  Some (file_system_id, st).

Definition CreateFileSystemStruct (web_contents : option WebContents)
    (type : string) (file_system_id : nat) (file_system_path : string)
    : option FileSystem :=
  wc ← web_contents;
  let org := origin wc in
  Some (Build_FileSystem type
          (GetIsolatedFileSystemName org file_system_id)
          (GetIsolatedFileSystemRootURIString org file_system_id kRootName)
          file_system_path).

Definition CreateFileSystemValue (file_system : FileSystem) : Value :=
  DictionaryValue
    [("type", StringValue (type file_system));
     ("fileSystemName", StringValue (file_system_name file_system));
     ("rootURL", StringValue (root_url file_system));
     ("fileSystemPath", StringValue (file_system_path file_system))].

(** [GetPrefService] dereferences its argument. *)
Definition GetPrefService (web_contents : option WebContents) : option unit :=
  _ ← web_contents; Some ().

Definition GetAddedFileSystemPaths (web_contents : option WebContents)
    (st : Delegate) : option (gmap string string) :=
  _ ← GetPrefService web_contents;
  Some (match prefs st with
        | Some file_system_paths_value =>
            (λ v, if is_string v then GetString v else "")
              <$> file_system_paths_value
        | None => ∅
        end).

Definition IsDevToolsFileSystemAdded (web_contents : option WebContents)
    (file_system_path : string) (st : Delegate) : option bool :=
  _ ← GetPrefService web_contents;
  file_systems_paths_value ← prefs st;
  Some (bool_decide (is_Some (file_systems_paths_value !! file_system_path))).

(** Iteration over a [std::map<std::string, std::string>]: by key. *)
Definition key_le (x y : string * string) : Prop := String.leb x.1 y.1.

#[global] Instance key_le_dec x y : Decision (key_le x y) :=
  Is_true_dec (String.leb x.1 y.1).

Definition in_key_order (m : gmap string string) : list (string * string) :=
  merge_sort key_le (map_to_list m).

(** ** Member functions of CommonWebContentsDelegate *)

Definition GetDevToolsWebContents (st : Delegate) : option WebContents :=
  match web_contents_ st with
  | None => None
  | Some inspectable => devtools_web_contents inspectable
  end.

(** [web_contents_->CallClientFunction(name, arg1, arg2, arg3)]. *)
Definition CallClientFunction (name : string) (args : list Value)
    (st : Delegate) : option Delegate :=
  _ ← web_contents_ st;
  Some (record (CallClient name args (dom (devtools_indexing_jobs_ st))) st).

Definition OnDevToolsSaveToFile (url : string) (st : Delegate)
    : option Delegate :=
  CallClientFunction "DevToolsAPI.savedURL" [StringValue url] st.

Definition OnDevToolsAppendToFile (url : string) (st : Delegate)
    : option Delegate :=
  CallClientFunction "DevToolsAPI.appendedToURL" [StringValue url] st.

Definition OnDevToolsIndexingWorkCalculated (request_id : Z)
    (file_system_path : string) (total_work : Z) (st : Delegate)
    : option Delegate :=
  CallClientFunction "DevToolsAPI.indexingTotalWorkCalculated"
    [IntValue request_id; StringValue file_system_path; IntValue total_work] st.

Definition OnDevToolsIndexingWorked (request_id : Z)
    (file_system_path : string) (worked : Z) (st : Delegate)
    : option Delegate :=
  CallClientFunction "DevToolsAPI.indexingWorked"
    [IntValue request_id; StringValue file_system_path; IntValue worked] st.

Definition OnDevToolsIndexingDone (request_id : Z)
    (file_system_path : string) (st : Delegate) : option Delegate :=
  let st := set_jobs (delete request_id) st in
  CallClientFunction "DevToolsAPI.indexingDone"
    [IntValue request_id; StringValue file_system_path] st.

Definition OnDevToolsSearchCompleted (request_id : Z)
    (file_system_path : string) (file_paths : list string) (st : Delegate)
    : option Delegate :=
  CallClientFunction "DevToolsAPI.searchCompleted"
    [IntValue request_id; StringValue file_system_path;
     ListValue (StringValue <$> file_paths)] st.

Definition DevToolsSaveToFile (url content : string) (save_as : bool)
    (st : Delegate) : option Delegate :=
  match saved_files_ st !! url, save_as with
  | Some path, false =>
      let st := set_saved_files <[url := path]> st in
      Some (PostTaskAndReply (WriteToFileTask path content)
              (OnDevToolsSaveToFileReply url) st)
  | _, _ => Some (FileEntryPicker (SaveAsPicker url content) st)
  end.

Definition DevToolsAppendToFile (url content : string) (st : Delegate)
    : option Delegate :=
  match saved_files_ st !! url with
  | None => Some st
  | Some path =>
      Some (PostTaskAndReply (AppendToFileTask path content)
              (OnDevToolsAppendToFileReply url) st)
  end.

(** The first loop of [DevToolsRequestFileSystems]. *)
Fixpoint register_each (file_system_paths : list (string * string))
    (st : Delegate) : option (list FileSystem * Delegate) :=
  match file_system_paths with
  | [] => Some ([], st)
  | file_system_path :: rest =>
      '(file_system_id, st) ←
        RegisterFileSystem (GetDevToolsWebContents st) file_system_path.1 st;
      file_system ←
        CreateFileSystemStruct (GetDevToolsWebContents st)
          file_system_path.2 file_system_id file_system_path.1;
      '(file_systems, st) ← register_each rest st;
      Some (file_system :: file_systems, st)
  end.

Definition DevToolsRequestFileSystems (st : Delegate) : option Delegate :=
  file_system_paths ← GetAddedFileSystemPaths (GetDevToolsWebContents st) st;
  if decide (file_system_paths = ∅) then
    CallClientFunction "DevToolsAPI.fileSystemsLoaded" [ListValue []] st
  else
    '(file_systems, st) ← register_each (in_key_order file_system_paths) st;
    CallClientFunction "DevToolsAPI.fileSystemsLoaded"
      [ListValue (CreateFileSystemValue <$> file_systems)] st.

Definition DevToolsAddFileSystemInteral (path : FilePath) (type : string)
    (st : Delegate) : option Delegate :=
  '(file_system_id, st) ← RegisterFileSystem (GetDevToolsWebContents st) path st;
  added ← IsDevToolsFileSystemAdded (GetDevToolsWebContents st) path st;
  if added : bool then Some st
  else
    file_system ←
      CreateFileSystemStruct (GetDevToolsWebContents st) type file_system_id path;
    _ ← GetPrefService (GetDevToolsWebContents st);
    let st :=
      set_prefs (λ d, Some (<[path := StringValue type]> (default ∅ d))) st in
    CallClientFunction "DevToolsAPI.fileSystemAdded"
      [CreateFileSystemValue file_system] st.

Definition DevToolsAddFileSystem (file_system_path : FilePath) (type : string)
    (st : Delegate) : option Delegate :=
  if decide (file_system_path = "") then
    Some (FileEntryPicker (FolderPicker type) st)
  else DevToolsAddFileSystemInteral file_system_path type st.

Definition DevToolsRemoveFileSystem (file_system_path : FilePath)
    (st : Delegate) : option Delegate :=
  match web_contents_ st with
  | None => Some st
  | Some _ =>
      let st := IsolatedContext_RevokeFileSystemByPath file_system_path st in
      _ ← GetPrefService (GetDevToolsWebContents st);
      let st :=
        set_prefs (λ d, Some (delete file_system_path (default ∅ d))) st in
      CallClientFunction "DevToolsAPI.fileSystemRemoved"
        [StringValue file_system_path] st
  end.

Definition DevToolsIndexPath (request_id : Z) (file_system_path : string)
    (st : Delegate) : option Delegate :=
  added ←
    IsDevToolsFileSystemAdded (GetDevToolsWebContents st) file_system_path st;
  if negb added then OnDevToolsIndexingDone request_id file_system_path st
  else if decide (is_Some (devtools_indexing_jobs_ st !! request_id)) then
    Some st
  else
    let '(job, st) := Indexer_IndexPath request_id file_system_path st in
    Some (set_jobs <[request_id := job]> st).

Definition DevToolsStopIndexing (request_id : Z) (st : Delegate)
    : option Delegate :=
  match devtools_indexing_jobs_ st !! request_id with
  | None => Some st
  | Some job => Some (set_jobs (delete request_id) (Job_Stop job st))
  end.

Definition DevToolsSearchInPath (request_id : Z)
    (file_system_path query : string) (st : Delegate) : option Delegate :=
  added ←
    IsDevToolsFileSystemAdded (GetDevToolsWebContents st) file_system_path st;
  if negb added then
    OnDevToolsSearchCompleted request_id file_system_path [] st
  else Some (Indexer_SearchInPath request_id file_system_path query st).

Definition OnSaveFileSelected (url content : string) (paths : list FilePath)
    (st : Delegate) : option Delegate :=
  path0 ← head paths;
  let st := set_saved_files <[url := path0]> st in
  Some (PostTaskAndReply (WriteToFileTask path0 content)
          (OnDevToolsSaveToFileReply url) st).

Definition OnSaveFileSelectionCancelled (url : string) (st : Delegate)
    : option Delegate :=
  CallClientFunction "DevToolsAPI.canceledSaveURL" [StringValue url] st.

Definition OnAddFileSelected (type : string) (paths : list FilePath)
    (st : Delegate) : option Delegate :=
  path0 ← head paths;
  DevToolsAddFileSystemInteral path0 type st.

Definition OnAddFileSelectionCancelled (st : Delegate) : option Delegate :=
  Some st.

(** ** Events

    What can happen to the delegate: a request of the DevTools front end, or
    a collaborator running a callback it was handed.  A job or search of the
    indexer, an open picker and a posted task can run the callbacks bound
    into them; nothing else is assumed about when they do. *)

Inductive Event :=
| SaveToFile (url content : string) (save_as : bool)
| AppendToFile (url content : string)
| RequestFileSystems
| AddFileSystem (file_system_path type : string)
| RemoveFileSystem (file_system_path : string)
| IndexPath (request_id : Z) (file_system_path : string)
| StopIndexing (request_id : Z)
| SearchInPath (request_id : Z) (file_system_path query : string)
| FileTaskRuns
| ReplyRuns
| FilesSelected (picker : nat) (paths : list string)
| SelectionCancelled (picker : nat)
| TotalWorkCalculated (job : nat) (total_work : Z)
| Worked (job : nat) (worked : Z)
| Done (job : nat)
| SearchCompleted (search : nat) (file_paths : list string).

(** [WriteToFile] and [AppendToFile] of the anonymous namespace, run by the
    task runner; the reply is then posted back. *)
Definition run_file_task (task : FileTask) (st : Delegate) : Delegate :=
  match task with
  | WriteToFileTask path content => record (WriteFile path content) st
  | AppendToFileTask path content => record (AppendFile path content) st
  end.

Definition run_reply (reply : Reply) (st : Delegate) : option Delegate :=
  match reply with
  | OnDevToolsSaveToFileReply url => OnDevToolsSaveToFile url st
  | OnDevToolsAppendToFileReply url => OnDevToolsAppendToFile url st
  end.

Definition step (ev : Event) (st : Delegate) : option Delegate :=
  match ev with
  | SaveToFile url content save_as => DevToolsSaveToFile url content save_as st
  | AppendToFile url content => DevToolsAppendToFile url content st
  | RequestFileSystems => DevToolsRequestFileSystems st
  | AddFileSystem path type => DevToolsAddFileSystem path type st
  | RemoveFileSystem path => DevToolsRemoveFileSystem path st
  | IndexPath request_id path => DevToolsIndexPath request_id path st
  | StopIndexing request_id => DevToolsStopIndexing request_id st
  | SearchInPath request_id path query =>
      DevToolsSearchInPath request_id path query st
  | FileTaskRuns =>
      match file_tasks st with
      | [] => None
      | (task, reply) :: rest =>
          Some (set_replies (λ q, q ++ [reply])
                  (run_file_task task (set_file_tasks (λ _, rest) st)))
      end
  | ReplyRuns =>
      match replies st with
      | [] => None
      | reply :: rest => run_reply reply (set_replies (λ _, rest) st)
      end
  | FilesSelected picker paths =>
      p ← pickers st !! picker;
      let st := set_pickers (delete picker) st in
      match p with
      | SaveAsPicker url content => OnSaveFileSelected url content paths st
      | FolderPicker type => OnAddFileSelected type paths st
      end
  | SelectionCancelled picker =>
      p ← pickers st !! picker;
      let st := set_pickers (delete picker) st in
      match p with
      | SaveAsPicker url _ => OnSaveFileSelectionCancelled url st
      | FolderPicker _ => OnAddFileSelectionCancelled st
      end
  | TotalWorkCalculated job total_work =>
      j ← indexer_jobs st !! job;
      OnDevToolsIndexingWorkCalculated (bound_request_id j) (bound_path j)
        total_work st
  | Worked job worked =>
      j ← indexer_jobs st !! job;
      OnDevToolsIndexingWorked (bound_request_id j) (bound_path j) worked st
  | Done job =>
      j ← indexer_jobs st !! job;
      OnDevToolsIndexingDone (bound_request_id j) (bound_path j) st
  | SearchCompleted search file_paths =>
      s ← searches st !! search;
      let st := set_searches (delete search) st in
      OnDevToolsSearchCompleted (search_request_id s) (search_path s)
        file_paths st
  end.

Fixpoint run (evs : list Event) (st : Delegate) : option Delegate :=
  match evs with
  | [] => Some st
  | ev :: evs => st ← step ev st; run evs st
  end.

(** ** A sample delegate *)

Definition devtools : WebContents :=
  {| renderer_id := 7; origin := "chrome-devtools://devtools/" |}.

(** DevTools open, one workspace folder persisted, nothing else going on. *)
Definition sample : Delegate :=
  mkDelegate (Some {| devtools_web_contents := Some devtools |})
    ∅ ∅ (Some {[ "/src" := StringValue "" ]}) [] [] [] [] [] [] [] [].

(** ** Reading the list of calls *)

(** The notifications sent to the DevTools front end, oldest first. *)
Definition notifications (st : Delegate) : list (string * list Value) :=
  omap (λ c, match c with CallClient name args _ => Some (name, args) | _ => None end)
    (calls st).

Definition is_notification (c : Call) : bool :=
  match c with CallClient _ _ _ => true | _ => false end.

(** The calls [RegisterFileSystem] makes for [path], given the identifier
    the isolated context mints. *)
Definition registration (renderer : Z) (path : FilePath) (file_system_id : nat)
    : list Call :=
  [RegisterFileSystemForPath path file_system_id;
   Grant ReadFileSystem renderer file_system_id;
   Grant WriteFileSystem renderer file_system_id;
   Grant CreateFileForFileSystem renderer file_system_id;
   Grant DeleteFromFileSystem renderer file_system_id].

(** The members and collaborator state that [RegisterFileSystem] leaves
    alone. *)
Definition untouched (st st' : Delegate) : Prop :=
  web_contents_ st' = web_contents_ st ∧
  saved_files_ st' = saved_files_ st ∧
  devtools_indexing_jobs_ st' = devtools_indexing_jobs_ st ∧
  prefs st' = prefs st ∧
  indexer_jobs st' = indexer_jobs st ∧
  searches st' = searches st ∧
  file_tasks st' = file_tasks st ∧
  replies st' = replies st ∧
  pickers st' = pickers st.

(** ** Predicates on delegates and events *)

(** The request id an indexing notification bears: the first argument of
    indexingTotalWorkCalculated, indexingWorked and indexingDone. *)
Definition indexing_request_id (c : Call) : option Z :=
  match c with
  | CallClient name (IntValue request_id :: _) _ =>
      if (name =? "DevToolsAPI.indexingTotalWorkCalculated")%string
         || (name =? "DevToolsAPI.indexingWorked")%string
         || (name =? "DevToolsAPI.indexingDone")%string
      then Some request_id else None
  | _ => None
  end.

(** [st'] differs from [st] in nothing the indexing tracker or the save
    cache can see, and sent no indexing notification on the way. *)
Definition bystander (st st' : Delegate) : Prop :=
  web_contents_ st' = web_contents_ st ∧
  saved_files_ st' = saved_files_ st ∧
  devtools_indexing_jobs_ st' = devtools_indexing_jobs_ st ∧
  indexer_jobs st' = indexer_jobs st ∧
  ∃ new, calls st' = calls st ++ new ∧
         Forall (λ c, indexing_request_id c = None) new.

(** Events that have nothing to do with indexing or with choosing where a
    url is saved. *)
Definition boring (ev : Event) (st : Delegate) : bool :=
  match ev with
  | IndexPath _ _ | StopIndexing _
  | TotalWorkCalculated _ _ | Worked _ _ | Done _ => false
  | FilesSelected picker _ =>
      match pickers st !! picker with
      | Some (SaveAsPicker _ _) => false
      | _ => true
      end
  | _ => true
  end.

(** Closes [bystander] goals of steps that make no call. *)
Ltac stand_by :=
  repeat split; simpl; try done; exists []; by rewrite app_nil_r.

(** The request id whose indexing notifications an event can cause. *)
Definition may_notify (ev : Event) (st : Delegate) : option Z :=
  match ev with
  | IndexPath request_id _ => Some request_id
  | TotalWorkCalculated job _ | Worked job _ | Done job =>
      bound_request_id <$> indexer_jobs st !! job
  | _ => None
  end.

(** What the events that are not [boring] do to the delegate. *)
Inductive outcome (ev : Event) (st : Delegate) : Delegate → Prop :=
| outcome_nothing :
    outcome ev st st
| outcome_progress request_id c :
    may_notify ev st = Some request_id →
    indexing_request_id c = Some request_id →
    outcome ev st (record c st)
| outcome_done request_id c :
    may_notify ev st = Some request_id →
    indexing_request_id c = Some request_id →
    outcome ev st (record c (set_jobs (delete request_id) st))
| outcome_started request_id path :
    ev = IndexPath request_id path →
    devtools_indexing_jobs_ st !! request_id = None →
    outcome ev st
      (set_jobs <[request_id := length (indexer_jobs st)]>
         (set_indexer_jobs
            (λ l, l ++ [Build_FileSystemIndexingJob request_id path false]) st))
| outcome_stopped request_id job :
    ev = StopIndexing request_id →
    devtools_indexing_jobs_ st !! request_id = Some job →
    outcome ev st (set_jobs (delete request_id) (Job_Stop job st))
| outcome_selected picker path rest url content :
    ev = FilesSelected picker (path :: rest) →
    pickers st !! picker = Some (SaveAsPicker url content) →
    outcome ev st
      (PostTaskAndReply (WriteToFileTask path content)
         (OnDevToolsSaveToFileReply url)
         (set_saved_files <[url := path]> (set_pickers (delete picker) st))).

(** A delegate that already tracks a path for a.txt. *)
Definition tracking : Delegate :=
  set_saved_files <["a.txt" := "/tmp/a.txt"]> sample.

(** Every tracked request id stands for a job of the indexer that was
    started for that id and has not been stopped. *)
Definition tracked_live (st : Delegate) : Prop :=
  ∀ request_id job,
    devtools_indexing_jobs_ st !! request_id = Some job →
    ∃ j, indexer_jobs st !! job = Some j ∧
         bound_request_id j = request_id ∧ stopped j = false.

(** Runs in which no event can cause an indexing notification for
    [request_id]: no DevToolsIndexPath under that id, and no callback of an
    indexer job that was started for it. *)
Inductive quiet (request_id : Z) : Delegate → list Event → Delegate → Prop :=
| quiet_nil st :
    quiet request_id st [] st
| quiet_cons st ev st1 evs st' :
    may_notify ev st ≠ Some request_id →
    step ev st = Some st1 →
    quiet request_id st1 evs st' →
    quiet request_id st (ev :: evs) st'.

(** Whether an event is a path being selected in a save-as picker opened
    for [url]. *)
Definition selects (url : string) (ev : Event) (st : Delegate) : bool :=
  match ev with
  | FilesSelected picker (_ :: _) =>
      match pickers st !! picker with
      | Some (SaveAsPicker url' _) => bool_decide (url' = url)
      | _ => false
      end
  | _ => false
  end.

(** Whether no event of a run from [st] selects a path for [url]. *)
Fixpoint never_selected (url : string) (evs : list Event) (st : Delegate)
    : bool :=
  match evs with
  | [] => true
  | ev :: evs =>
      negb (selects url ev st) &&
      match step ev st with
      | Some st1 => never_selected url evs st1
      | None => true
      end
  end.

(** Request 1 being indexed on the registered path. *)
Definition indexing : Delegate :=
  set_jobs <[1%Z := 0]>
    (set_indexer_jobs (λ _, [Build_FileSystemIndexingJob 1 "/src" false]) sample).

(** ** Further members *)


(** The front-end functions the delegate calls by name. *)
Definition DevToolsAPI : list string :=
  ["DevToolsAPI.fileSystemsLoaded"; "DevToolsAPI.fileSystemAdded";
   "DevToolsAPI.fileSystemRemoved"; "DevToolsAPI.savedURL";
   "DevToolsAPI.canceledSaveURL"; "DevToolsAPI.appendedToURL";
   "DevToolsAPI.indexingTotalWorkCalculated"; "DevToolsAPI.indexingWorked";
   "DevToolsAPI.indexingDone"; "DevToolsAPI.searchCompleted"].

(** A call that is not to the front end, or is to one of those functions
    with one to three arguments. *)
Definition in_vocabulary (c : Call) : bool :=
  match c with
  | CallClient name args _ =>
      bool_decide (name ∈ DevToolsAPI) &&
      bool_decide (1 ≤ length args ≤ 3)%nat
  | _ => true
  end.

(** [st'] is [st] after some more calls, all of them in the vocabulary. *)
Definition speaks (st st' : Delegate) : Prop :=
  ∃ new, calls st' = calls st ++ new ∧
         Forall (λ c, in_vocabulary c = true) new.

(** ** HTML fullscreen

    The fullscreen members of the same delegate, kept apart from the
    DevTools members above: they share no state. *)

Module Fullscreen.

(** Calls to the owner window and to the widget of the tab. *)
Inductive WindowCall :=
| SetFullScreen (fullscreen : bool)
| NotifyWindowEnterHtmlFullScreen
| NotifyWindowLeaveHtmlFullScreen
| WasResized.

(** [owner_window_] is a weak pointer: [None] when it is unset or the window
    is gone, otherwise what the window's [IsFullscreen] answers now. *)
Record Members := mkMembers {
  html_fullscreen_ : bool;
  native_fullscreen_ : bool;
  owner_window_ : option bool;
  window_calls : list WindowCall
}.

Definition set_flags (html native : bool) (st : Members) : Members :=
  mkMembers html native (owner_window_ st) (window_calls st).

Definition note (c : WindowCall) (st : Members) : Members :=
  mkMembers (html_fullscreen_ st) (native_fullscreen_ st) (owner_window_ st)
    (window_calls st ++ [c]).

(** The window reports another fullscreen state (the user toggled it, or an
    earlier [SetFullScreen] took effect). *)
Definition window_reports (fullscreen : bool) (st : Members) : Members :=
  mkMembers (html_fullscreen_ st) (native_fullscreen_ st)
    (match owner_window_ st with Some _ => Some fullscreen | None => None end)
    (window_calls st).

Definition SetHtmlApiFullscreen (enter_fullscreen : bool) (st : Members) : Members :=
  match owner_window_ st with
  | Some IsFullscreen =>
      if enter_fullscreen && IsFullscreen then set_flags true true st
      else if negb enter_fullscreen && native_fullscreen_ st then
        set_flags false (native_fullscreen_ st) st
      else
        set_flags enter_fullscreen false (note (SetFullScreen enter_fullscreen) st)
  | None => set_flags enter_fullscreen false st
  end.

(** [source] is the tab's web contents pointer, [false] when null. *)
Definition EnterFullscreenModeForTab (source : bool) (st : Members)
    : option Members :=
  match owner_window_ st with
  | None => Some st
  | Some _ =>
      let st := SetHtmlApiFullscreen true st in
      let st := note NotifyWindowEnterHtmlFullScreen st in
      if source then Some (note WasResized st) else None
  end.

Definition ExitFullscreenModeForTab (source : bool) (st : Members)
    : option Members :=
  match owner_window_ st with
  | None => Some st
  | Some _ =>
      let st := SetHtmlApiFullscreen false st in
      let st := note NotifyWindowLeaveHtmlFullScreen st in
      Some (if source then note WasResized st else st)
  end.

Definition IsFullscreenForTabOrPending (st : Members) : bool :=
  html_fullscreen_ st.

(** The [SetFullScreen] window_calls among some window_calls. *)
Definition window_changes (l : list WindowCall) : list bool :=
  omap (λ c, match c with SetFullScreen b => Some b | _ => None end) l.

(** A windowed tab: nothing fullscreen, the owner window not fullscreen. *)
Definition windowed : Members := mkMembers false false (Some false) [].

End Fullscreen.

(** ** The IPC bindings of a script context

    [atom::JavascriptBindings] (the first half of
    atom/common/javascript_bindings.cc): hidden values on the global object
    and the dispatch of messages from the browser. *)

Module Bindings.

(** [extensions::Feature::Context], as far as the bindings tell the values
    apart. *)
Inductive ContextType :=
| WEB_PAGE_CONTEXT
| WEBUI_CONTEXT
| BLESSED_EXTENSION_CONTEXT
| OTHER_CONTEXT.

(** The V8 values the bindings make or pass on. *)
Inductive V8Value :=
| Undefined
| StringToV8 (s : string)
| ConvertToV8 (v : Value)
| EmptyDictionary                       (* mate::Dictionary::CreateEmpty *)
| SharedMemoryWrapper (handle : nat)    (* SharedMemoryWrapper::CreateFrom *)
| PageValue (n : nat).                  (* any other value of the page *)

(** Messages from the browser; a shared-memory handle is [None] when
    [IsHandleValid] fails. *)
Inductive Message :=
| AtomViewMsg_Message (channel : string) (args : list Value)
| AtomViewMsg_Message_Shared (channel : string) (handle : option nat)
| OtherMessage.

Record Handler := mkHandler {
  is_valid : bool;                  (* the handler's is_valid() *)
  render_frame : bool;              (* render_frame() is not null *)
  context_is_valid : bool;          (* context()->is_valid() *)
  effective_context_type : ContextType;
  (* the private properties of v8_context->Global(), by key *)
  global_private : gmap string V8Value;
  (* arguments of every CallModuleMethodSafe("ipc_utils", "emit", ...) *)
  emitted : list (list V8Value)
}.

Definition set_global_private (f : gmap string V8Value → gmap string V8Value)
    (st : Handler) : Handler :=
  mkHandler (is_valid st) (render_frame st) (context_is_valid st)
    (effective_context_type st) (f (global_private st)) (emitted st).

Definition emit (args : list V8Value) (st : Handler) : Handler :=
  mkHandler (is_valid st) (render_frame st) (context_is_valid st)
    (effective_context_type st) (global_private st) (emitted st ++ [args]).

(** An empty [v8::Local<v8::Value>] is [None]. *)
Definition GetHiddenValue (key : string) (st : Handler) : option V8Value :=
  if negb (is_valid st) || negb (render_frame st) then None
  else global_private st !! key.

Definition SetHiddenValue (key : string) (value : option V8Value) (st : Handler)
    : Handler :=
  match value with
  | Some v =>
      if negb (is_valid st) || negb (render_frame st) then st
      else set_global_private <[key := v]> st
  | None => st
  end.

(** The [object] argument is not used by the body. *)
Definition DeleteHiddenValue (object : V8Value) (key : string) (st : Handler)
    : Handler :=
  if negb (is_valid st) || negb (render_frame st) then st
  else set_global_private <[key := Undefined]> st.

Definition ListValueToVector (values : list Value) : list V8Value :=
  ConvertToV8 <$> values.

Definition OnSharedBrowserMessage (channel : string) (handle : option nat)
    (st : Handler) : Handler :=
  match handle with
  | None => st
  | Some h =>
      if negb (is_valid st) then st
      else
        let args_vector := [SharedMemoryWrapper h] in
        let args_vector := EmptyDictionary :: args_vector in
        emit ([StringToV8 channel] ++ args_vector) st
  end.

Definition OnBrowserMessage (channel : string) (args : list Value)
    (st : Handler) : Handler :=
  if negb (context_is_valid st) then st
  else
    match effective_context_type st with
    | WEB_PAGE_CONTEXT => st
    | _ =>
        let args_vector := ListValueToVector args in
        let args_vector := EmptyDictionary :: args_vector in
        emit ([StringToV8 channel] ++ args_vector) st
    end.

(** The two message maps expand to a [switch] on the message type each:
    a handler case that dispatches, and a default case that runs
    [handled = false]. *)
Definition OnMessageReceived (message : Message) (st : Handler) : bool * Handler :=
  if negb (is_valid st) then (false, st)
  else
    let context_type := effective_context_type st in
    match context_type with
    | WEB_PAGE_CONTEXT => (false, st)
    | _ =>
        let handled := false in
        let '(handled, st) :=
          match context_type with
          | WEBUI_CONTEXT | BLESSED_EXTENSION_CONTEXT =>
              match message with
              | AtomViewMsg_Message_Shared channel handle =>
                  (handled, OnSharedBrowserMessage channel handle st)
              | _ => (false, st)
              end
          | _ => (handled, st)
          end in
        match message with
        | AtomViewMsg_Message channel args =>
            (handled, OnBrowserMessage channel args st)
        | _ => (false, st)
        end
    end.

(** A live WebUI context. *)
Definition webui : Handler := mkHandler true true true WEBUI_CONTEXT ∅ [].

End Bindings.

(** ** Looking for the Widevine CDM

    [IsWidevineAvailable] of atom/app/atom_content_client.cc, compiled when
    the CDM is bundled.  The build flag and the path arithmetic are
    parameters; [PathService::Get] and [base::PathExists] are what the
    process finds at the time of the call. *)

Module Widevine.

Inductive FileCheck := NOT_CHECKED | FOUND | NOT_FOUND.

Inductive VideoCodec := kCodecVP8 | kCodecVP9 | kCodecH264.

(** The four out-parameters. *)
Record Args := mkArgs {
  adapter_path : string;
  cdm_path : string;
  codecs_supported : list VideoCodec;
  supports_persistent_license : option bool
}.

Definition same_check (a b : FileCheck) : bool :=
  match a, b with
  | NOT_CHECKED, NOT_CHECKED | FOUND, FOUND | NOT_FOUND, NOT_FOUND => true
  | _, _ => false
  end.

(** [USE_PROPRIETARY_CODECS]: the build flag; [library_beside]: the CDM
    library path computed from the adapter path; [FILE_WIDEVINE_CDM_ADAPTER]:
    what [PathService::Get] finds, if anything; [PathExists]: the file
    system; last, the function's static [widevine_cdm_file_check]. *)
Definition IsWidevineAvailable (USE_PROPRIETARY_CODECS : bool)
    (library_beside : string → string)
    (FILE_WIDEVINE_CDM_ADAPTER : option string) (PathExists : string → bool)
    (args : Args) (widevine_cdm_file_check : FileCheck)
    : bool * Args * FileCheck :=
  match FILE_WIDEVINE_CDM_ADAPTER with
  | Some adapter =>
      let cdm := library_beside adapter in
      let widevine_cdm_file_check :=
        if same_check widevine_cdm_file_check NOT_CHECKED then
          if PathExists adapter && PathExists cdm then FOUND else NOT_FOUND
        else widevine_cdm_file_check in
      if same_check widevine_cdm_file_check FOUND then
        let codecs := codecs_supported args ++ [kCodecVP8] in
        let codecs := codecs ++ [kCodecVP9] in
        let codecs :=
          if USE_PROPRIETARY_CODECS then codecs ++ [kCodecH264] else codecs in
        (true, mkArgs adapter cdm codecs (Some false), widevine_cdm_file_check)
      else
        (false,
         mkArgs adapter cdm (codecs_supported args)
           (supports_persistent_license args),
         widevine_cdm_file_check)
  | None => (false, args, widevine_cdm_file_check)
  end.


End Widevine.

(** ** Reading a fileSystemsLoaded argument *)

(** The value a dictionary holds under a key. *)
Fixpoint dictionary_entry (key : string) (d : list (string * Value))
    : option Value :=
  match d with
  | [] => None
  | (k, v) :: rest =>
      if (k =? key)%string then Some v else dictionary_entry key rest
  end.

(** The path and type a file-system dictionary tells the front end. *)
Definition listed (v : Value) : option (string * string) :=
  match v with
  | DictionaryValue d =>
      match dictionary_entry "fileSystemPath" d, dictionary_entry "type" d with
      | Some (StringValue path), Some (StringValue type) => Some (path, type)
      | _, _ => None
      end
  | _ => None
  end.

(** DevTools open with three workspace folders persisted. *)
Definition three_folders : Delegate :=
  set_prefs
    (λ _, Some (<["/z" := StringValue ""]>
                  (<["/a" := StringValue "notes"]>
                     {[ "/src" := StringValue "" ]})))
    sample.

(** ** Basic facts *)

Lemma untouched_refl st : untouched st st.
Proof. by repeat split. Qed.

Lemma untouched_trans st1 st2 st3 :
  untouched st1 st2 → untouched st2 st3 → untouched st1 st3.
Proof. unfold untouched. intros H12 H23. destruct_and!. repeat split; congruence. Qed.

Lemma GetDevToolsWebContents_untouched st st' :
  untouched st st' → GetDevToolsWebContents st' = GetDevToolsWebContents st.
Proof. intros (Hw & _). unfold GetDevToolsWebContents. by rewrite Hw. Qed.

Lemma GetDevToolsWebContents_Some st wc :
  GetDevToolsWebContents st = Some wc → is_Some (web_contents_ st).
Proof. unfold GetDevToolsWebContents. destruct (web_contents_ st); [eauto | done]. Qed.

Lemma CallClientFunction_Some name args st :
  is_Some (web_contents_ st) →
  CallClientFunction name args st =
    Some (record (CallClient name args (dom (devtools_indexing_jobs_ st))) st).
Proof. intros [w Hw]. unfold CallClientFunction. by rewrite Hw. Qed.

Lemma notifications_app_calls st st' new :
  calls st' = calls st ++ new →
  Forall (λ c, is_notification c = false) new →
  notifications st' = notifications st.
Proof.
  intros Hc Hnew. unfold notifications. rewrite Hc, omap_app.
  rewrite <- (app_nil_r (omap _ (calls st))) at 2. f_equal. clear Hc.
  induction Hnew as [|c new Hc' _ IH]; [done|].
  by destruct c.
Qed.

Lemma registration_quiet renderer path file_system_id :
  Forall (λ c, is_notification c = false) (registration renderer path file_system_id).
Proof. unfold registration. by repeat constructor. Qed.

Lemma RegisterFileSystem_spec wc path st :
  ∃ st',
    RegisterFileSystem (Some wc) path st = Some (length (isolated st), st') ∧
    untouched st st' ∧
    isolated st' = isolated st ++ [Some path] ∧
    calls st' = calls st ++ registration (renderer_id wc) path (length (isolated st))
                  ++ (if CanReadFile (renderer_id wc) path st then []
                      else [GrantReadFile (renderer_id wc) path]).
Proof.
  unfold RegisterFileSystem, IsolatedContext_RegisterFileSystemForPath. simpl.
  unfold CanReadFile. simpl.
  destruct (bool_decide _); eexists; (split; [reflexivity|]); simpl;
    rewrite <- ?app_assoc; simpl; repeat split.
Qed.

Lemma delete_last_picker (l : list Picker) (p : Picker) :
  delete (length l) (l ++ [p]) = l.
Proof. rewrite delete_middle. apply app_nil_r. Qed.

Lemma set_pickers_open_close st p :
  set_pickers (delete (length (pickers st))) (FileEntryPicker p st) = st.
Proof.
  destruct st. unfold FileEntryPicker, set_pickers. simpl.
  by rewrite delete_last_picker.
Qed.

(** ** The save/append file cache *)

(** C8: when the picker opened by a Save is cancelled, the delegate sends
    one canceledSaveURL notification for the url and nothing else happens:
    the url-to-path mapping is unchanged and no write is posted or run. *)
Theorem C8_save_cancelled (st : Delegate) (picker : nat) (url content : string) :
  is_Some (web_contents_ st) →
  pickers st !! picker = Some (SaveAsPicker url content) →
  ∃ st',
    step (SelectionCancelled picker) st = Some st' ∧
    calls st' = calls st ++
      [CallClient "DevToolsAPI.canceledSaveURL" [StringValue url]
         (dom (devtools_indexing_jobs_ st))] ∧
    saved_files_ st' = saved_files_ st ∧
    file_tasks st' = file_tasks st ∧
    replies st' = replies st ∧
    pickers st' = delete picker (pickers st).
Proof.
  intros Hw Hp. simpl. rewrite Hp. simpl.
  unfold OnSaveFileSelectionCancelled.
  rewrite CallClientFunction_Some by done.
  eexists. split; [reflexivity|]. by repeat split.
Qed.

Lemma C8_save_cancelled_witness :
  ∃ st',
    step (SelectionCancelled 0)
      (FileEntryPicker (SaveAsPicker "a.txt" "hello") sample) = Some st' ∧
    calls st' = [CallClient "DevToolsAPI.canceledSaveURL" [StringValue "a.txt"] ∅] ∧
    saved_files_ st' = ∅ ∧ file_tasks st' = [] ∧ replies st' = [] ∧
    pickers st' = [].
Proof.
  apply (C8_save_cancelled
           (FileEntryPicker (SaveAsPicker "a.txt" "hello") sample) 0
           "a.txt" "hello").
  - simpl. eauto.
  - reflexivity.
Defined.

(** ** The folder picker *)

(** C10: the cancel callback of the folder picker does nothing, and opening
    the picker through DevToolsAddFileSystem with an empty path and then
    cancelling it leaves the delegate and every collaborator exactly as
    before: no notification, no change to the registry or to any tracker. *)
Theorem C10_add_cancelled (st : Delegate) (type : string) :
  OnAddFileSelectionCancelled st = Some st ∧
  run [AddFileSystem "" type; SelectionCancelled (length (pickers st))] st
    = Some st.
Proof.
  split; [reflexivity|]. simpl. unfold DevToolsAddFileSystem. simpl.
  rewrite list_lookup_middle by done. simpl.
  unfold OnAddFileSelectionCancelled. by rewrite set_pickers_open_close.
Qed.

(** ** Which events touch what *)

Lemma bystander_refl st : bystander st st.
Proof. repeat split. exists []. by rewrite app_nil_r. Qed.

Lemma bystander_trans st1 st2 st3 :
  bystander st1 st2 → bystander st2 st3 → bystander st1 st3.
Proof.
  intros (? & ? & ? & ? & new1 & Hc1 & Hq1) (? & ? & ? & ? & new2 & Hc2 & Hq2).
  repeat split; try congruence.
  exists (new1 ++ new2). split.
  - by rewrite Hc2, Hc1, app_assoc.
  - by apply Forall_app.
Qed.

Lemma bystander_record c st :
  indexing_request_id c = None → bystander st (record c st).
Proof. intros Hc. repeat split. exists [c]. split; [done|]. by constructor. Qed.

Lemma untouched_bystander st st' new :
  untouched st st' → calls st' = calls st ++ new →
  Forall (λ c, is_notification c = false) new → bystander st st'.
Proof.
  intros (? & ? & ? & ? & ? & _) Hc Hnew. repeat split; try done.
  exists new. split; [done|]. eapply Forall_impl; [exact Hnew|].
  by intros []. 
Qed.

Lemma RegisterFileSystem_bystander web_contents path st file_system_id st' :
  RegisterFileSystem web_contents path st = Some (file_system_id, st') →
  bystander st st'.
Proof.
  destruct web_contents as [wc|]; [|done].
  destruct (RegisterFileSystem_spec wc path st) as (st1 & Hr & Hu & _ & Hc).
  rewrite Hr. intros [= _ <-].
  eapply untouched_bystander; [done| |].
  - rewrite Hc. reflexivity.
  - apply Forall_app. split; [apply registration_quiet|].
    destruct (CanReadFile _ _ _); by repeat constructor.
Qed.

Lemma register_each_bystander file_system_paths :
  ∀ st file_systems st',
    register_each file_system_paths st = Some (file_systems, st') →
    bystander st st'.
Proof.
  induction file_system_paths as [|[path type] rest IH]; simpl.
  - intros st fss st' [= _ <-]. apply bystander_refl.
  - intros st fss st' H.
    destruct (RegisterFileSystem _ _ _) as [[id st1]|] eqn:Hr; [|done].
    simpl in H.
    destruct (CreateFileSystemStruct _ _ _ _); [|done]. simpl in H.
    destruct (register_each rest st1) as [[fss1 st2]|] eqn:He; [|done].
    simpl in H. injection H as _ <-.
    eapply bystander_trans; [by eapply RegisterFileSystem_bystander|by eapply IH].
Qed.

Lemma CallClientFunction_bystander name args st st' :
  CallClientFunction name args st = Some st' →
  indexing_request_id (CallClient name args ∅) = None →
  bystander st st'.
Proof.
  unfold CallClientFunction. destruct (web_contents_ st); [|done].
  intros [= <-] Hq. by apply bystander_record.
Qed.

Lemma DevToolsAddFileSystemInteral_bystander path type st st' :
  DevToolsAddFileSystemInteral path type st = Some st' → bystander st st'.
Proof.
  unfold DevToolsAddFileSystemInteral. intros H.
  destruct (RegisterFileSystem _ _ _) as [[id st1]|] eqn:Hr; [|done].
  apply RegisterFileSystem_bystander in Hr. simpl in H.
  destruct (IsDevToolsFileSystemAdded _ _ _) as [[]|]; simpl in H; [|  |done].
  - by injection H as <-.
  - destruct (CreateFileSystemStruct _ _ _ _); [|done]. simpl in H.
    destruct (GetPrefService _); [|done]. simpl in H.
    eapply bystander_trans; [exact Hr|].
    eapply bystander_trans; [|by eapply CallClientFunction_bystander].
    stand_by.
Qed.

Lemma step_bystander ev st st' :
  boring ev st = true → step ev st = Some st' → bystander st st'.
Proof.
  destruct ev; simpl; try done; intros Hb H.
  - (* SaveToFile *)
    unfold DevToolsSaveToFile in H.
    destruct (saved_files_ st !! url) as [path|] eqn:Hs;
      [destruct save_as|]; injection H as <-; try stand_by.
    repeat split; simpl; try done; [by apply insert_id|].
    exists []. by rewrite app_nil_r.
  - (* AppendToFile *)
    unfold DevToolsAppendToFile in H.
    destruct (saved_files_ st !! url); injection H as <-; stand_by.
  - (* RequestFileSystems *)
    unfold DevToolsRequestFileSystems in H.
    destruct (GetAddedFileSystemPaths _ _) as [m|]; [|done]. simpl in H.
    destruct (decide (m = ∅)).
    + by eapply CallClientFunction_bystander.
    + destruct (register_each _ _) as [[fss st1]|] eqn:He; [|done]. simpl in H.
      eapply bystander_trans; [by eapply register_each_bystander|].
      by eapply CallClientFunction_bystander.
  - (* AddFileSystem *)
    unfold DevToolsAddFileSystem in H.
    destruct (decide (file_system_path0 = "")).
    + injection H as <-. stand_by.
    + by eapply DevToolsAddFileSystemInteral_bystander.
  - (* RemoveFileSystem *)
    unfold DevToolsRemoveFileSystem in H.
    destruct (web_contents_ st) eqn:Hw; [|injection H as <-; apply bystander_refl].
    destruct (GetPrefService _); [|done]. simpl in H.
    eapply bystander_trans; [|by eapply CallClientFunction_bystander].
    repeat split; simpl; try done.
    eexists [_]. split; [reflexivity|]. by repeat constructor.
  - (* SearchInPath *)
    unfold DevToolsSearchInPath in H.
    destruct (IsDevToolsFileSystemAdded _ _ _) as [[]|]; simpl in H; [| |done].
    + injection H as <-. stand_by.
    + by eapply CallClientFunction_bystander.
  - (* FileTaskRuns *)
    destruct (file_tasks st) as [|[task reply] rest]; [done|].
    injection H as <-. destruct task; repeat split; simpl; try done;
      (eexists [_]; split; [reflexivity|]; by repeat constructor).
  - (* ReplyRuns *)
    destruct (replies st) as [|reply rest]; [done|].
    destruct reply; simpl in H;
      (eapply bystander_trans; [|by eapply CallClientFunction_bystander]);
      stand_by.
  - (* FilesSelected, folder picker *)
    destruct (pickers st !! picker) as [[|type]|]; try done. simpl in H.
    unfold OnAddFileSelected in H. destruct (head paths); [|done]. simpl in H.
    eapply bystander_trans; [|by eapply DevToolsAddFileSystemInteral_bystander].
    stand_by.
  - (* SelectionCancelled *)
    destruct (pickers st !! picker) as [[url content|type]|]; try done;
      simpl in H.
    + eapply bystander_trans; [|by eapply CallClientFunction_bystander].
      stand_by.
    + injection H as <-. stand_by.
  - (* SearchCompleted *)
    destruct (searches st !! search); [|done]. simpl in H.
    eapply bystander_trans; [|by eapply CallClientFunction_bystander].
    stand_by.
Qed.

Lemma OnDevToolsIndexingDone_Some request_id path st :
  is_Some (web_contents_ st) →
  OnDevToolsIndexingDone request_id path st =
    Some (record
            (CallClient "DevToolsAPI.indexingDone"
               [IntValue request_id; StringValue path]
               (dom (delete request_id (devtools_indexing_jobs_ st))))
            (set_jobs (delete request_id) st)).
Proof.
  intros Hw. unfold OnDevToolsIndexingDone.
  by rewrite CallClientFunction_Some.
Qed.

Lemma OnDevToolsIndexingDone_inv request_id path st st' :
  OnDevToolsIndexingDone request_id path st = Some st' →
  is_Some (web_contents_ st).
Proof.
  unfold OnDevToolsIndexingDone, CallClientFunction. simpl.
  destruct (web_contents_ st); [eauto|done].
Qed.

Lemma step_outcome ev st st' :
  boring ev st = false → step ev st = Some st' → outcome ev st st'.
Proof.
  destruct ev; simpl; try done; intros Hb H.
  - (* IndexPath *)
    unfold DevToolsIndexPath in H.
    destruct (IsDevToolsFileSystemAdded _ _ _) as [[]|]; simpl in H; [| |done].
    + destruct (decide _) as [Hj|Hj]; injection H as <-.
      * constructor.
      * by eapply outcome_started; [|apply eq_None_not_Some].
    + pose proof (OnDevToolsIndexingDone_inv _ _ _ _ H) as Hw.
      rewrite OnDevToolsIndexingDone_Some in H by done. injection H as <-.
      by eapply outcome_done.
  - (* StopIndexing *)
    unfold DevToolsStopIndexing in H.
    destruct (devtools_indexing_jobs_ st !! request_id) as [job|] eqn:Hj;
      injection H as <-.
    + by eapply outcome_stopped.
    + constructor.
  - (* FilesSelected, save-as picker *)
    destruct (pickers st !! picker) as [[url content|]|] eqn:Hp; try done.
    simpl in H. unfold OnSaveFileSelected in H.
    destruct paths as [|path rest]; [done|]. simpl in H. injection H as <-.
    by eapply outcome_selected.
  - (* TotalWorkCalculated *)
    destruct (indexer_jobs st !! job) as [j|] eqn:Hj; [|done]. simpl in H.
    unfold OnDevToolsIndexingWorkCalculated, CallClientFunction in H.
    destruct (web_contents_ st); [|done]. injection H as <-.
    eapply outcome_progress; simpl; [by rewrite Hj|done].
  - (* Worked *)
    destruct (indexer_jobs st !! job) as [j|] eqn:Hj; [|done]. simpl in H.
    unfold OnDevToolsIndexingWorked, CallClientFunction in H.
    destruct (web_contents_ st); [|done]. injection H as <-.
    eapply outcome_progress; simpl; [by rewrite Hj|done].
  - (* Done *)
    destruct (indexer_jobs st !! job) as [j|] eqn:Hj; [|done]. simpl in H.
    pose proof (OnDevToolsIndexingDone_inv _ _ _ _ H) as Hw.
    rewrite OnDevToolsIndexingDone_Some in H by done. injection H as <-.
    eapply outcome_done; simpl; [by rewrite Hj|done].
Qed.

Lemma set_saved_files_insert_id st url path :
  saved_files_ st !! url = Some path →
  set_saved_files <[url := path]> st = st.
Proof.
  intros Hs. destruct st. unfold set_saved_files. simpl in *.
  by rewrite insert_id.
Qed.

Lemma step_saved_files ev st st' :
  step ev st = Some st' →
  saved_files_ st' = saved_files_ st ∨
  ∃ picker path rest url content,
    ev = FilesSelected picker (path :: rest) ∧
    pickers st !! picker = Some (SaveAsPicker url content) ∧
    saved_files_ st' = <[url := path]> (saved_files_ st).
Proof.
  intros H. destruct (boring ev st) eqn:Hb.
  - left. by destruct (step_bystander _ _ _ Hb H) as (_ & ? & _).
  - destruct (step_outcome _ _ _ Hb H); subst; eauto 10.
Qed.

(** C4: with save_as false and a tracked path for the url, DevToolsSaveToFile
    posts a write of the content to that path and opens no picker: the open
    pickers, the mapping and the calls made so far are as before, the posted
    task is the last of the queue, and when the task runner runs it, the
    content is written to that path.  In every other case it opens one
    save-as picker for the url and posts nothing.  The url-to-path mapping
    changes on no event other than a path being selected in such a picker,
    and at that point the write is posted but has not run. *)
Theorem C4_save (st : Delegate) (url content : string) :
  (∀ path,
     saved_files_ st !! url = Some path →
     let st' := PostTaskAndReply (WriteToFileTask path content)
                  (OnDevToolsSaveToFileReply url) st in
     DevToolsSaveToFile url content false st = Some st' ∧
     pickers st' = pickers st ∧
     saved_files_ st' = saved_files_ st ∧
     calls st' = calls st ∧
     file_tasks st' = file_tasks st ++
       [(WriteToFileTask path content, OnDevToolsSaveToFileReply url)] ∧
     (∀ s, calls (run_file_task (WriteToFileTask path content) s) =
           calls s ++ [WriteFile path content]) ∧
     (file_tasks st = [] →
      ∃ st'',
        step FileTaskRuns st' = Some st'' ∧
        calls st'' = calls st ++ [WriteFile path content] ∧
        file_tasks st'' = [] ∧
        replies st'' = replies st ++ [OnDevToolsSaveToFileReply url] ∧
        pickers st'' = pickers st)) ∧
  (∀ save_as,
     save_as = true ∨ saved_files_ st !! url = None →
     let st' := FileEntryPicker (SaveAsPicker url content) st in
     DevToolsSaveToFile url content save_as st = Some st' ∧
     pickers st' = pickers st ++ [SaveAsPicker url content] ∧
     file_tasks st' = file_tasks st ∧
     saved_files_ st' = saved_files_ st ∧
     calls st' = calls st) ∧
  (∀ picker path rest,
     pickers st !! picker = Some (SaveAsPicker url content) →
     ∃ st',
       step (FilesSelected picker (path :: rest)) st = Some st' ∧
       saved_files_ st' = <[url := path]> (saved_files_ st) ∧
       pickers st' = delete picker (pickers st) ∧
       file_tasks st' = file_tasks st ++
         [(WriteToFileTask path content, OnDevToolsSaveToFileReply url)] ∧
       calls st' = calls st ∧
       (∀ s, calls (run_file_task (WriteToFileTask path content) s) =
             calls s ++ [WriteFile path content])) ∧
  (∀ ev st',
     step ev st = Some st' →
     saved_files_ st' ≠ saved_files_ st →
     ∃ picker paths url' content',
       ev = FilesSelected picker paths ∧ paths ≠ [] ∧
       pickers st !! picker = Some (SaveAsPicker url' content')).
Proof.
  split; [|split; [|split]].
  - intros path Hs st'. split.
    { unfold DevToolsSaveToFile. rewrite Hs.
      by rewrite set_saved_files_insert_id. }
    split; [done|]. split; [done|]. split; [done|]. split; [done|].
    split; [done|].
    intros Ht. cbn [step]. subst st'.
    cbn [file_tasks PostTaskAndReply set_file_tasks]. rewrite Ht.
    eexists. split; [reflexivity|]. by repeat split.
  - intros save_as Hcase st'. split; [|by repeat split].
    destruct Hcase as [-> | Hs]; unfold DevToolsSaveToFile.
    + by destruct (saved_files_ st !! url).
    + by rewrite Hs.
  - intros picker path rest Hp. simpl. rewrite Hp. simpl.
    eexists. split; [reflexivity|]. simpl.
    split; [done|]. split; [done|]. split; [done|]. split; done.
  - intros ev st' H Hne.
    destruct (step_saved_files _ _ _ H) as [?|(picker & path & rest & url' & content' & -> & Hp & _)];
      [done|].
    by exists picker, (path :: rest), url', content'.
Qed.

Lemma C4_save_witness :
  (∃ st' st'',
     DevToolsSaveToFile "a.txt" "hello" false tracking = Some st' ∧
     pickers st' = [] ∧
     file_tasks st' =
       [(WriteToFileTask "/tmp/a.txt" "hello", OnDevToolsSaveToFileReply "a.txt")] ∧
     step FileTaskRuns st' = Some st'' ∧
     calls st'' = [WriteFile "/tmp/a.txt" "hello"]) ∧
  (∃ st',
     DevToolsSaveToFile "a.txt" "hello" false sample = Some st' ∧
     pickers st' = [SaveAsPicker "a.txt" "hello"] ∧
     file_tasks st' = []) ∧
  (∃ st',
     DevToolsSaveToFile "a.txt" "hello" true tracking = Some st' ∧
     pickers st' = [SaveAsPicker "a.txt" "hello"] ∧
     file_tasks st' = []).
Proof.
  split; [|split].
  - destruct (proj1 (C4_save tracking "a.txt" "hello") "/tmp/a.txt" eq_refl)
      as (Hsave & Hp & _ & _ & Ht & _ & Hrun).
    destruct (Hrun eq_refl) as (st'' & Hstep & Hc & _).
    eexists _, st''. split; [exact Hsave|]. split; [exact Hp|].
    split; [exact Ht|]. split; [exact Hstep|]. exact Hc.
  - destruct (proj1 (proj2 (C4_save sample "a.txt" "hello")) false
                (or_intror eq_refl)) as (Hsave & Hp & Ht & _).
    eexists. split; [exact Hsave|]. split; [exact Hp|exact Ht].
  - destruct (proj1 (proj2 (C4_save tracking "a.txt" "hello")) true
                (or_introl eq_refl)) as (Hsave & Hp & Ht & _).
    eexists. split; [exact Hsave|]. split; [exact Hp|exact Ht].
Defined.

Lemma step_untracked url ev st st' :
  saved_files_ st !! url = None →
  selects url ev st = false →
  step ev st = Some st' →
  saved_files_ st' !! url = None.
Proof.
  intros Hnone Hsel H.
  destruct (step_saved_files _ _ _ H)
    as [->|(picker & path & rest & url' & content & -> & Hp & ->)]; [done|].
  simpl in Hsel. rewrite Hp in Hsel.
  apply bool_decide_eq_false_1 in Hsel. by rewrite lookup_insert_ne.
Qed.

(** C5: take a delegate that tracks no path for a url, and any run of events
    in which no path is selected in a save-as picker for that url (no Save
    of it succeeds).  Then DevToolsAppendToFile for the url returns with the
    delegate and all its collaborators exactly as they were: no task is
    posted to the file task runner, so no file is written, and no
    appendedToURL notification is sent. *)
Theorem C5_append_untracked_is_noop (st : Delegate) (url content : string)
    (evs : list Event) (st' : Delegate) :
  saved_files_ st !! url = None →
  never_selected url evs st = true →
  run evs st = Some st' →
  saved_files_ st' !! url = None ∧
  DevToolsAppendToFile url content st' = Some st'.
Proof.
  intros Hnone Hnever Hrun.
  assert (saved_files_ st' !! url = None) as Hnone'.
  { revert st Hnone Hnever Hrun.
    induction evs as [|ev evs IH]; simpl; intros st Hnone Hnever Hrun.
    - by injection Hrun as <-.
    - destruct (step ev st) as [st1|] eqn:Hs; [|done]. simpl in Hrun.
      apply andb_true_iff in Hnever as [Hsel Hnever].
      apply negb_true_iff in Hsel.
      eapply IH; [|exact Hnever|exact Hrun]. by eapply step_untracked. }
  split; [done|]. unfold DevToolsAppendToFile. by rewrite Hnone'.
Qed.

Lemma C5_append_untracked_is_noop_witness :
  ∃ st',
    run [SaveToFile "a.txt" "hello" false; SelectionCancelled 0;
         IndexPath 1 "/src"; AppendToFile "a.txt" "!"] sample = Some st' ∧
    saved_files_ st' !! "a.txt" = None ∧
    DevToolsAppendToFile "a.txt" " world" st' = Some st'.
Proof.
  eexists. split; [reflexivity|].
  eapply (C5_append_untracked_is_noop sample "a.txt" " world"
            [SaveToFile "a.txt" "hello" false; SelectionCancelled 0;
             IndexPath 1 "/src"; AppendToFile "a.txt" "!"]).
  - reflexivity.
  - reflexivity.
  - reflexivity.
Defined.

(** ** The indexing job tracker *)

Lemma IsDevToolsFileSystemAdded_Some st wc d path :
  GetDevToolsWebContents st = Some wc → prefs st = Some d →
  IsDevToolsFileSystemAdded (GetDevToolsWebContents st) path st =
    Some (bool_decide (is_Some (d !! path))).
Proof.
  intros Hwc Hd. unfold IsDevToolsFileSystemAdded. rewrite Hwc, Hd. done.
Qed.

(** C2: for a path that is not in the persisted registry, DevToolsIndexPath
    sends indexingDone(request_id, path) at once and nothing else; it asks
    the indexer for no job, so no callback exists that could report work for
    this call, and the tracker has no entry for the request id afterwards. *)
Theorem C2_index_unregistered (st : Delegate) (wc : WebContents)
    (d : gmap string Value) (request_id : Z) (path : string) :
  GetDevToolsWebContents st = Some wc →
  prefs st = Some d →
  d !! path = None →
  ∃ st',
    DevToolsIndexPath request_id path st = Some st' ∧
    notifications st' = notifications st ++
      [("DevToolsAPI.indexingDone", [IntValue request_id; StringValue path])] ∧
    indexer_jobs st' = indexer_jobs st ∧
    devtools_indexing_jobs_ st' = delete request_id (devtools_indexing_jobs_ st) ∧
    devtools_indexing_jobs_ st' !! request_id = None.
Proof.
  intros Hwc Hd Hp. unfold DevToolsIndexPath.
  rewrite (IsDevToolsFileSystemAdded_Some st wc d) by done. simpl.
  rewrite bool_decide_eq_false_2 by (rewrite Hp; by intros [? ?]). simpl.
  rewrite OnDevToolsIndexingDone_Some by by eapply GetDevToolsWebContents_Some.
  eexists. split; [reflexivity|]. repeat split; simpl.
  - unfold notifications. simpl. by rewrite omap_app.
  - apply lookup_delete_eq.
Qed.

Lemma C2_index_unregistered_witness :
  ∃ st',
    DevToolsIndexPath 1 "/tmp" sample = Some st' ∧
    notifications st' =
      [("DevToolsAPI.indexingDone", [IntValue 1; StringValue "/tmp"])] ∧
    indexer_jobs st' = [] ∧
    devtools_indexing_jobs_ st' = delete 1%Z ∅ ∧
    devtools_indexing_jobs_ st' !! 1%Z = None.
Proof.
  apply (C2_index_unregistered sample devtools {[ "/src" := StringValue "" ]}
           1 "/tmp"); reflexivity.
Defined.

Lemma step_tracked_live ev st st' :
  tracked_live st → step ev st = Some st' → tracked_live st'.
Proof.
  intros Hinv H. destruct (boring ev st) eqn:Hb.
  - destruct (step_bystander _ _ _ Hb H) as (_ & _ & Hj & Hi & _).
    unfold tracked_live. rewrite Hj, Hi. exact Hinv.
  - destruct (step_outcome _ _ _ Hb H) as
      [ | id c _ _ | id c _ _ | id path _ Hnone | id job _ Hjob
        | picker path rest url content _ _ ];
      unfold tracked_live; simpl; try exact Hinv.
    + (* done: the entry is erased *)
      intros id' job' Hl. apply lookup_delete_Some in Hl as [_ Hl]. eauto.
    + (* started: a new job is tracked *)
      intros id' job' Hl. apply lookup_insert_Some in Hl as [[<- <-]|[Hne Hl]].
      * eexists. split; [by apply list_lookup_middle|]. done.
      * destruct (Hinv _ _ Hl) as (j & Hj & ?). exists j. split; [|done].
        by apply lookup_app_l_Some.
    + (* stopped: the entry is erased, the job flagged *)
      intros id' job' Hl. apply lookup_delete_Some in Hl as [Hne Hl].
      destruct (Hinv _ _ Hl) as (j' & Hj' & Hb' & Hs').
      destruct (Hinv _ _ Hjob) as (j & Hj & Hbj & _).
      exists j'. split; [|done]. unfold Job_Stop. simpl.
      rewrite list_lookup_alter_ne; [done|]. intros ->. congruence.
Qed.

Lemma run_tracked_live evs :
  ∀ st st', tracked_live st → run evs st = Some st' → tracked_live st'.
Proof.
  induction evs as [|ev evs IH]; simpl; intros st st' Hinv H.
  - by injection H as <-.
  - destruct (step ev st) as [st1|] eqn:Hs; [|done]. simpl in H.
    eapply IH; [|exact H]. by eapply step_tracked_live.
Qed.

(** C1 as stated fails: request 1 is being indexed, and a second
    DevToolsIndexPath for request 1, on a path that is not registered, is
    not a no-op: it erases the tracker entry and sends indexingDone. *)
Lemma C1_index_while_running_counterexample :
  ∃ st st',
    run [IndexPath 1 "/src"] sample = Some st ∧
    devtools_indexing_jobs_ st !! 1%Z = Some 0 ∧
    DevToolsIndexPath 1 "/tmp" st = Some st' ∧
    devtools_indexing_jobs_ st' !! 1%Z = None ∧
    notifications st' =
      [("DevToolsAPI.indexingDone", [IntValue 1; StringValue "/tmp"])] ∧
    st' ≠ st.
Proof.
  eexists. eexists. split; [reflexivity|]. split; [reflexivity|].
  split; [reflexivity|]. split; [reflexivity|]. split; [reflexivity|].
  intros Heq. apply (f_equal (λ s, length (calls s))) in Heq. discriminate Heq.
Qed.

(** The job erased that way was never stopped: indexing the registered path
    again under the same request id leaves the indexer with two unstopped
    jobs bound to request 1. *)
Example two_jobs_for_one_request :
  indexer_jobs <$>
    run [IndexPath 1 "/src"; IndexPath 1 "/tmp"; IndexPath 1 "/src"] sample
  = Some [Build_FileSystemIndexingJob 1 "/src" false;
          Build_FileSystemIndexingJob 1 "/src" false].
Proof. reflexivity. Qed.

(** C1, as the code has it: DevToolsIndexPath for a request id that is being indexed is
    a no-op when the path is in the persisted registry; OnDevToolsIndexingDone
    erases the tracker entry and only then notifies, so the notification is
    sent with the request id no longer tracked; and at any time each tracked
    request id stands for one unstopped indexer job started for that id. *)
Theorem C1_tracker :
  (∀ st wc d request_id path,
     GetDevToolsWebContents st = Some wc →
     prefs st = Some d →
     is_Some (d !! path) →
     is_Some (devtools_indexing_jobs_ st !! request_id) →
     DevToolsIndexPath request_id path st = Some st) ∧
  (∀ st request_id path st',
     OnDevToolsIndexingDone request_id path st = Some st' →
     devtools_indexing_jobs_ st' !! request_id = None ∧
     ∃ tracked,
       calls st' = calls st ++
         [CallClient "DevToolsAPI.indexingDone"
            [IntValue request_id; StringValue path] tracked] ∧
       request_id ∉ tracked) ∧
  (∀ evs st st',
     tracked_live st → run evs st = Some st' → tracked_live st').
Proof.
  split; [|split].
  - intros st wc d id path Hwc Hd Hp Hj. unfold DevToolsIndexPath.
    rewrite (IsDevToolsFileSystemAdded_Some st wc d) by done. simpl.
    rewrite bool_decide_eq_true_2 by done. simpl.
    by rewrite decide_True.
  - intros st id path st' H.
    pose proof (OnDevToolsIndexingDone_inv _ _ _ _ H) as Hw.
    rewrite OnDevToolsIndexingDone_Some in H by done. injection H as <-.
    simpl. split; [apply lookup_delete_eq|].
    eexists. split; [reflexivity|].
    rewrite elem_of_dom, lookup_delete_eq. by intros [? ?].
  - intros evs st st'. apply run_tracked_live.
Qed.

Lemma C1_tracker_witness :
  ∃ st,
    run [IndexPath 1 "/src"] sample = Some st ∧
    DevToolsIndexPath 1 "/src" st = Some st.
Proof.
  eexists. split; [reflexivity|].
  eapply (proj1 C1_tracker _ devtools {[ "/src" := StringValue "" ]} 1%Z "/src").
  - reflexivity.
  - reflexivity.
  - vm_compute. eauto.
  - vm_compute. eauto.
Defined.

Lemma step_calls ev st st' :
  step ev st = Some st' →
  ∃ new, calls st' = calls st ++ new ∧
         Forall (λ c, ∀ request_id, indexing_request_id c = Some request_id →
                        may_notify ev st = Some request_id) new.
Proof.
  intros H. destruct (boring ev st) eqn:Hb.
  - destruct (step_bystander _ _ _ Hb H) as (_ & _ & _ & _ & new & Hc & Hq).
    exists new. split; [done|]. eapply Forall_impl; [exact Hq|].
    intros c Hn id. by rewrite Hn.
  - destruct (step_outcome _ _ _ Hb H) as
      [ | id c Hm Hc | id c Hm Hc | | | ]; simpl;
      try (exists []; split; [by rewrite app_nil_r|constructor]).
    + exists [c]. split; [done|]. repeat constructor. intros id'. congruence.
    + exists [c]. split; [done|]. repeat constructor. intros id'. congruence.
Qed.

Lemma quiet_calls request_id st evs st' :
  quiet request_id st evs st' →
  ∃ new, calls st' = calls st ++ new ∧
         Forall (λ c, indexing_request_id c ≠ Some request_id) new.
Proof.
  induction 1 as [st|st ev st1 evs st' Hm Hs _ (new2 & Hc2 & Hq2)].
  - exists []. split; [by rewrite app_nil_r|constructor].
  - destruct (step_calls _ _ _ Hs) as (new1 & Hc1 & Hq1).
    exists (new1 ++ new2). split; [by rewrite Hc2, Hc1, app_assoc|].
    apply Forall_app. split; [|done].
    eapply Forall_impl; [exact Hq1|]. intros c Hc Hid. apply Hm. by apply Hc.
Qed.

Example indexing_reached : run [IndexPath 1 "/src"] sample = Some indexing.
Proof. reflexivity. Qed.

(** C3 as stated fails: request 1 is stopped, no notification has been sent
    so far, and the callbacks of the stopped job still notify when the
    indexer runs them; so does a new DevToolsIndexPath under the stopped id,
    here on a path that is not registered. *)
Lemma C3_notified_after_stop_counterexample :
  ∃ st,
    run [StopIndexing 1] indexing = Some st ∧
    notifications st = [] ∧
    (notifications <$> run [Worked 0 3; Done 0] st) =
      Some [("DevToolsAPI.indexingWorked",
             [IntValue 1; StringValue "/src"; IntValue 3]);
            ("DevToolsAPI.indexingDone", [IntValue 1; StringValue "/src"])] ∧
    (notifications <$> run [IndexPath 1 "/tmp"] st) =
      Some [("DevToolsAPI.indexingDone", [IntValue 1; StringValue "/tmp"])].
Proof. eexists. repeat split. Qed.

(** C3, as the code has it: DevToolsStopIndexing for a running request id calls Stop on
    the job, erases the tracker entry and sends nothing; afterwards no
    indexing notification bearing that id is sent for as long as the indexer
    runs no callback of a job started for that id and DevToolsIndexPath is
    not called under it.  The callbacks themselves do not consult the
    tracker. *)
Theorem C3_stop_then_quiet (st : Delegate) (request_id : Z) (job : nat) :
  devtools_indexing_jobs_ st !! request_id = Some job →
  ∃ st1,
    DevToolsStopIndexing request_id st = Some st1 ∧
    calls st1 = calls st ∧
    devtools_indexing_jobs_ st1 !! request_id = None ∧
    indexer_jobs st1 =
      alter (λ j, Build_FileSystemIndexingJob (bound_request_id j) (bound_path j) true)
        job (indexer_jobs st) ∧
    ∀ evs st',
      quiet request_id st1 evs st' →
      ∃ new, calls st' = calls st ++ new ∧
             Forall (λ c, indexing_request_id c ≠ Some request_id) new.
Proof.
  intros Hj. unfold DevToolsStopIndexing. rewrite Hj.
  eexists. split; [reflexivity|]. simpl.
  split; [done|]. split; [apply lookup_delete_eq|]. split; [done|].
  intros evs st' Hq. by apply quiet_calls in Hq.
Qed.

Lemma C3_stop_then_quiet_witness :
  ∃ st1,
    DevToolsStopIndexing 1 indexing = Some st1 ∧
    calls st1 = [] ∧
    devtools_indexing_jobs_ st1 !! 1%Z = None ∧
    indexer_jobs st1 = [Build_FileSystemIndexingJob 1 "/src" true] ∧
    ∀ evs st',
      quiet 1 st1 evs st' →
      ∃ new, calls st' = [] ++ new ∧
             Forall (λ c, indexing_request_id c ≠ Some 1%Z) new.
Proof.
  apply (C3_stop_then_quiet indexing 1 0). reflexivity.
Defined.

(** A quiet run after the stop: another request is indexed and reports
    work, and the file systems are requested; request 1 is not heard of. *)
Example quiet_after_stop :
  ∃ st1 st',
    DevToolsStopIndexing 1 indexing = Some st1 ∧
    quiet 1 st1 [IndexPath 2 "/src"; Worked 1 5; StopIndexing 1;
                 RequestFileSystems; Done 1] st' ∧
    fst <$> notifications st' =
      ["DevToolsAPI.indexingWorked"; "DevToolsAPI.fileSystemsLoaded";
       "DevToolsAPI.indexingDone"].
Proof.
  eexists. eexists. split; [reflexivity|]. split.
  - repeat (eapply quiet_cons; [by vm_compute | by vm_compute |]).
    apply quiet_nil.
  - reflexivity.
Qed.

(** ** The persisted path registry *)

Lemma DevToolsAddFileSystemInteral_spec st wc d path type :
  GetDevToolsWebContents st = Some wc →
  prefs st = Some d →
  ∃ st1,
    RegisterFileSystem (Some wc) path st = Some (length (isolated st), st1) ∧
    untouched st st1 ∧
    isolated st1 = isolated st ++ [Some path] ∧
    calls st1 = calls st ++ registration (renderer_id wc) path (length (isolated st))
                  ++ (if CanReadFile (renderer_id wc) path st then []
                      else [GrantReadFile (renderer_id wc) path]) ∧
    DevToolsAddFileSystemInteral path type st =
      Some (if bool_decide (is_Some (d !! path)) then st1
            else
              record
                (CallClient "DevToolsAPI.fileSystemAdded"
                   [CreateFileSystemValue
                      (Build_FileSystem type
                         (GetIsolatedFileSystemName (origin wc) (length (isolated st)))
                         (GetIsolatedFileSystemRootURIString (origin wc)
                            (length (isolated st)) kRootName)
                         path)]
                   (dom (devtools_indexing_jobs_ st)))
                (set_prefs (λ _, Some (<[path := StringValue type]> d)) st1)).
Proof.
  intros Hwc Hd.
  destruct (RegisterFileSystem_spec wc path st) as (st1 & Hr & Hu & Hi & Hc).
  exists st1. repeat (split; [done|]).
  unfold DevToolsAddFileSystemInteral. rewrite Hwc, Hr. simpl.
  pose proof (GetDevToolsWebContents_untouched _ _ Hu) as Hwc1.
  rewrite Hwc in Hwc1. destruct Hu as (Hw & _ & Hj & Hp & _).
  rewrite (IsDevToolsFileSystemAdded_Some st1 wc d) by congruence. simpl.
  destruct (bool_decide _); [done|].
  rewrite Hwc1. simpl.
  rewrite CallClientFunction_Some
    by (simpl; rewrite Hw; by eapply GetDevToolsWebContents_Some).
  unfold record, set_prefs. simpl. rewrite Hj, Hp, Hd. done.
Qed.

(** C6: a path that is not in the persisted registry is reported as not
    added; after DevToolsAddFileSystemInteral with that path and a type, it
    is reported as added and the listing holds the path with that type. *)
Theorem C6_add_then_contains (st : Delegate) (wc : WebContents)
    (d : gmap string Value) (path type : string) :
  GetDevToolsWebContents st = Some wc →
  prefs st = Some d →
  d !! path = None →
  IsDevToolsFileSystemAdded (GetDevToolsWebContents st) path st = Some false ∧
  ∃ st',
    DevToolsAddFileSystemInteral path type st = Some st' ∧
    IsDevToolsFileSystemAdded (GetDevToolsWebContents st') path st' = Some true ∧
    ∃ listing,
      GetAddedFileSystemPaths (GetDevToolsWebContents st') st' = Some listing ∧
      listing !! path = Some type ∧
      (path, type) ∈ in_key_order listing.
Proof.
  intros Hwc Hd Hp.
  assert (bool_decide (is_Some (d !! path)) = false) as Hno
    by (apply bool_decide_eq_false_2; rewrite Hp; by intros [? ?]).
  split.
  { rewrite (IsDevToolsFileSystemAdded_Some st wc d) by done. by rewrite Hno. }
  destruct (DevToolsAddFileSystemInteral_spec st wc d path type Hwc Hd)
    as (st1 & _ & Hu & _ & _ & Hadd).
  rewrite Hno in Hadd. eexists. split; [exact Hadd|].
  pose proof (GetDevToolsWebContents_untouched _ _ Hu) as Hwc1.
  rewrite Hwc in Hwc1.
  match goal with |- context [GetDevToolsWebContents ?s] =>
    assert (GetDevToolsWebContents s = Some wc) as Hwc' by exact Hwc1 end.
  rewrite Hwc'. split.
  - unfold IsDevToolsFileSystemAdded. simpl.
    by rewrite lookup_insert_eq.
  - eexists. split; [reflexivity|].
    assert (((λ v, if is_string v then GetString v else "")
               <$> <[path := StringValue type]> d) !! path = Some type) as Hl
      by (by rewrite lookup_fmap, lookup_insert_eq).
    split; [exact Hl|].
    unfold in_key_order. rewrite merge_sort_Permutation.
    by apply elem_of_map_to_list.
Qed.

Lemma C6_add_then_contains_witness :
  IsDevToolsFileSystemAdded (GetDevToolsWebContents sample) "/tmp" sample
    = Some false ∧
  ∃ st',
    DevToolsAddFileSystemInteral "/tmp" "snippets" sample = Some st' ∧
    IsDevToolsFileSystemAdded (GetDevToolsWebContents st') "/tmp" st' = Some true ∧
    ∃ listing,
      GetAddedFileSystemPaths (GetDevToolsWebContents st') st' = Some listing ∧
      listing !! "/tmp" = Some "snippets" ∧
      ("/tmp", "snippets") ∈ in_key_order listing.
Proof.
  apply (C6_add_then_contains sample devtools {[ "/src" := StringValue "" ]}
           "/tmp" "snippets"); reflexivity.
Defined.

(** C7: DevToolsAddFileSystemInteral on a path that is already in the
    persisted registry leaves the registry as it is and sends no
    notification, yet registers the path with the isolated context under a
    new identifier and grants the DevTools renderer read, write, create and
    delete on it (and read on the path itself, if it lacks it). *)
Theorem C7_add_present (st : Delegate) (wc : WebContents)
    (d : gmap string Value) (path type : string) :
  GetDevToolsWebContents st = Some wc →
  prefs st = Some d →
  is_Some (d !! path) →
  ∃ st',
    DevToolsAddFileSystemInteral path type st = Some st' ∧
    prefs st' = prefs st ∧
    notifications st' = notifications st ∧
    isolated st !! length (isolated st) = None ∧
    isolated st' = isolated st ++ [Some path] ∧
    calls st' = calls st ++ registration (renderer_id wc) path (length (isolated st))
                  ++ (if CanReadFile (renderer_id wc) path st then []
                      else [GrantReadFile (renderer_id wc) path]).
Proof.
  intros Hwc Hd Hp.
  destruct (DevToolsAddFileSystemInteral_spec st wc d path type Hwc Hd)
    as (st1 & _ & Hu & Hi & Hc & Hadd).
  rewrite bool_decide_eq_true_2 in Hadd by done.
  exists st1. split; [done|]. split; [by destruct Hu as (_ & _ & _ & ? & _)|].
  split.
  { eapply notifications_app_calls; [exact Hc|]. apply Forall_app.
    split; [apply registration_quiet|].
    destruct (CanReadFile _ _ _); by repeat constructor. }
  split; [by apply lookup_ge_None|]. done.
Qed.

Lemma C7_add_present_witness :
  ∃ st',
    DevToolsAddFileSystemInteral "/src" "" sample = Some st' ∧
    prefs st' = prefs sample ∧
    notifications st' = [] ∧
    isolated sample !! 0 = None ∧
    isolated st' = [Some "/src"] ∧
    calls st' = [] ++ registration 7 "/src" 0 ++ [GrantReadFile 7 "/src"].
Proof.
  apply (C7_add_present sample devtools {[ "/src" := StringValue "" ]}
           "/src" "").
  - reflexivity.
  - reflexivity.
  - vm_compute. eauto.
Defined.

Lemma register_each_spec wc file_system_paths :
  ∀ st,
    GetDevToolsWebContents st = Some wc →
    ∃ file_systems st' log more,
      register_each file_system_paths st = Some (file_systems, st') ∧
      untouched st st' ∧
      calls st' = calls st ++ log ∧
      Forall (λ c, is_notification c = false) log ∧
      isolated st' = isolated st ++ more ∧
      (file_system_paths = [] → file_systems = [] ∧ log = [] ∧ more = []) ∧
      ∀ path tag,
        (path, tag) ∈ file_system_paths →
        ∃ file_system_id,
          (length (isolated st) ≤ file_system_id)%nat ∧
          isolated st' !! file_system_id = Some (Some path) ∧
          Forall (λ c, c ∈ log) (registration (renderer_id wc) path file_system_id) ∧
          ∃ file_system,
            file_system ∈ file_systems ∧
            type file_system = tag ∧
            file_system_path file_system = path.
Proof.
  induction file_system_paths as [|[p t] rest IH]; intros st Hwc.
  - exists [], st, [], []. simpl. rewrite !app_nil_r.
    repeat split; try done. intros path tag Hin. by apply elem_of_nil in Hin.
  - destruct (RegisterFileSystem_spec wc p st) as (st1 & Hr & Hu1 & Hi1 & Hc1).
    pose proof (GetDevToolsWebContents_untouched _ _ Hu1) as Hwc1.
    rewrite Hwc in Hwc1.
    destruct (IH st1 Hwc1) as (fss & st' & log & more & He & Hu & Hc & Hq & Hi & _ & Hall).
    set (opt := if CanReadFile (renderer_id wc) p st then []
                else [GrantReadFile (renderer_id wc) p]) in *.
    eexists _, st', (registration (renderer_id wc) p (length (isolated st)) ++ opt ++ log),
      (Some p :: more).
    split.
    { simpl. rewrite Hwc, Hr. simpl. rewrite Hwc1. simpl. rewrite He. done. }
    split; [by eapply untouched_trans|].
    split; [by rewrite Hc, Hc1, <- !app_assoc|].
    split.
    { apply Forall_app. split; [apply registration_quiet|].
      apply Forall_app. split; [|done].
      unfold opt. destruct (CanReadFile _ _ _); by repeat constructor. }
    split; [by rewrite Hi, Hi1, <- app_assoc|].
    split; [done|].
    intros path tag Hin. apply elem_of_cons in Hin as [[= -> ->]|Hin].
    + exists (length (isolated st)). split; [done|]. split.
      { rewrite Hi, Hi1, <- app_assoc. by apply list_lookup_middle. }
      split.
      { apply Forall_forall. intros c Hc'. apply elem_of_app. by left. }
      eexists. split; [by left|]. done.
    + destruct (Hall path tag Hin) as (id & Hle & Hl & Hreg & fs & Hfs & Ht & Hpth).
      exists id. rewrite Hi1, length_app in Hle. simpl in Hle.
      split; [lia|]. split; [done|]. split.
      { eapply Forall_impl; [exact Hreg|]. intros c Hc'.
        rewrite !elem_of_app. by right; right. }
      exists fs. split; [by right|]. done.
Qed.

Lemma GetAddedFileSystemPaths_Some st wc :
  GetDevToolsWebContents st = Some wc →
  GetAddedFileSystemPaths (GetDevToolsWebContents st) st =
    Some (match prefs st with
          | Some d => (λ v, if is_string v then GetString v else "") <$> d
          | None => ∅
          end).
Proof. intros Hwc. unfold GetAddedFileSystemPaths. by rewrite Hwc. Qed.

(** C9: DevToolsRequestFileSystems registers every path of the persisted
    registry with the isolated context under an identifier not handed out
    before and grants the DevTools renderer read, write, create and delete
    on it; all of that happens before the one fileSystemsLoaded
    notification, which lists a file system for every such path.  With no
    registry, or an empty one, nothing is registered or granted and the
    notification carries the empty list. *)
Theorem C9_request_file_systems (st : Delegate) (wc : WebContents) :
  GetDevToolsWebContents st = Some wc →
  ∃ st' log file_systems,
    DevToolsRequestFileSystems st = Some st' ∧
    calls st' = calls st ++ log ++
      [CallClient "DevToolsAPI.fileSystemsLoaded"
         [ListValue (CreateFileSystemValue <$> file_systems)]
         (dom (devtools_indexing_jobs_ st))] ∧
    Forall (λ c, is_notification c = false) log ∧
    (∀ d path v,
       prefs st = Some d → d !! path = Some v →
       ∃ file_system_id,
         isolated st !! file_system_id = None ∧
         isolated st' !! file_system_id = Some (Some path) ∧
         Forall (λ c, c ∈ log) (registration (renderer_id wc) path file_system_id) ∧
         ∃ file_system,
           file_system ∈ file_systems ∧
           file_system_path file_system = path ∧
           type file_system = (if is_string v then GetString v else "")) ∧
    (prefs st = None ∨ prefs st = Some ∅ →
       log = [] ∧ file_systems = [] ∧ isolated st' = isolated st).
Proof.
  intros Hwc. unfold DevToolsRequestFileSystems.
  rewrite (GetAddedFileSystemPaths_Some st wc Hwc). simpl.
  set (listing := match prefs st with Some d => _ <$> d | None => ∅ end).
  pose proof (GetDevToolsWebContents_Some _ _ Hwc) as Hw.
  destruct (decide (listing = ∅)) as [Hempty|Hne].
  - rewrite CallClientFunction_Some by done.
    exists (record (CallClient "DevToolsAPI.fileSystemsLoaded" [ListValue []]
                      (dom (devtools_indexing_jobs_ st))) st), [], [].
    split; [done|]. split; [done|]. split; [done|]. split; [|done].
    intros d path v Hd Hv. exfalso. unfold listing in Hempty. rewrite Hd in Hempty.
    apply fmap_empty_inv in Hempty. subst d. by rewrite lookup_empty in Hv.
  - destruct (register_each_spec wc (in_key_order listing) st Hwc)
      as (fss & st1 & log & more & He & Hu & Hc & Hq & Hi & _ & Hall).
    rewrite He. simpl.
    destruct Hu as (Hw1 & _ & Hj1 & _).
    rewrite CallClientFunction_Some by (by rewrite Hw1).
    eexists _, log, fss. split; [reflexivity|]. simpl.
    split; [by rewrite Hc, Hj1, <- app_assoc|]. split; [done|]. split.
    + intros d path v Hd Hv.
      destruct (Hall path (if is_string v then GetString v else "")) as
        (id & Hle & Hl & Hreg & fs & Hfs & Ht & Hp).
      { unfold in_key_order. rewrite merge_sort_Permutation.
        apply elem_of_map_to_list. unfold listing. rewrite Hd.
        by rewrite lookup_fmap, Hv. }
      exists id. split; [by apply lookup_ge_None|]. split; [done|].
      split; [done|]. by exists fs.
    + intros [Hd|Hd]; exfalso; apply Hne; unfold listing; rewrite Hd; [done|].
      apply fmap_empty.
Qed.

Lemma C9_request_file_systems_witness :
  ∃ st' log file_systems,
    DevToolsRequestFileSystems sample = Some st' ∧
    calls st' = [] ++ log ++
      [CallClient "DevToolsAPI.fileSystemsLoaded"
         [ListValue (CreateFileSystemValue <$> file_systems)] (dom (∅ : gmap Z nat))] ∧
    Forall (λ c, is_notification c = false) log ∧
    (∀ d path v,
       prefs sample = Some d → d !! path = Some v →
       ∃ file_system_id,
         isolated sample !! file_system_id = None ∧
         isolated st' !! file_system_id = Some (Some path) ∧
         Forall (λ c, c ∈ log) (registration 7 path file_system_id) ∧
         ∃ file_system,
           file_system ∈ file_systems ∧
           file_system_path file_system = path ∧
           type file_system = (if is_string v then GetString v else "")) ∧
    (prefs sample = None ∨ prefs sample = Some ∅ →
       log = [] ∧ file_systems = [] ∧ isolated st' = isolated sample).
Proof.
  apply (C9_request_file_systems sample devtools). reflexivity.
Defined.

(** What the sample delegate does on DevToolsRequestFileSystems. *)
Example request_file_systems_sample :
  calls <$> DevToolsRequestFileSystems sample =
    Some [RegisterFileSystemForPath "/src" 0;
          Grant ReadFileSystem 7 0; Grant WriteFileSystem 7 0;
          Grant CreateFileForFileSystem 7 0; Grant DeleteFromFileSystem 7 0;
          GrantReadFile 7 "/src";
          CallClient "DevToolsAPI.fileSystemsLoaded"
            [ListValue
               [DictionaryValue
                  [("type", StringValue "");
                   ("fileSystemName",
                    StringValue "chrome-devtools://devtools/:Isolated_0");
                   ("rootURL",
                    StringValue
                      "filesystem:chrome-devtools://devtools/isolated/0/<root>/");
                   ("fileSystemPath", StringValue "/src")]]] ∅].
Proof. reflexivity. Qed.

(** ** Removing a file system *)

Lemma DevToolsRemoveFileSystem_spec (st : Delegate) (wc : WebContents)
    (d : gmap string Value) (path : string) :
  GetDevToolsWebContents st = Some wc →
  prefs st = Some d →
  ∃ st',
    DevToolsRemoveFileSystem path st = Some st' ∧
    prefs st' = Some (delete path d) ∧
    IsDevToolsFileSystemAdded (GetDevToolsWebContents st') path st' = Some false ∧
    (∀ other,
       other ≠ path →
       IsDevToolsFileSystemAdded (GetDevToolsWebContents st') other st' =
       IsDevToolsFileSystemAdded (GetDevToolsWebContents st) other st) ∧
    calls st' = calls st ++
      [RevokeFileSystemByPath path;
       CallClient "DevToolsAPI.fileSystemRemoved" [StringValue path]
         (dom (devtools_indexing_jobs_ st))].
Proof.
  intros Hwc Hd. pose proof (GetDevToolsWebContents_Some _ _ Hwc) as [w Hw].
  unfold DevToolsRemoveFileSystem. rewrite Hw.
  assert (GetDevToolsWebContents
            (IsolatedContext_RevokeFileSystemByPath path st) = Some wc) as Hwc1
    by exact Hwc.
  rewrite Hwc1. simpl.
  rewrite CallClientFunction_Some by (simpl; rewrite Hw; eauto).
  eexists. split; [reflexivity|].
  match goal with |- context [GetDevToolsWebContents ?s] =>
    assert (GetDevToolsWebContents s = Some wc) as Hwc' by exact Hwc end.
  rewrite Hwc', Hwc. unfold IsDevToolsFileSystemAdded. simpl. rewrite Hd. simpl.
  split; [done|]. split.
  - by rewrite lookup_delete_eq.
  - split; [|by rewrite <- app_assoc].
    intros other Hne. by rewrite lookup_delete_ne.
Qed.

(** DevToolsRemoveFileSystem, with DevTools open: the path is revoked at the
    isolated context and deleted from the persisted registry, and one
    fileSystemRemoved notification is sent.  There is no membership test:
    all of this happens whether or not the path was in the registry.  Other
    paths keep their membership. *)
Theorem DevToolsRemoveFileSystem_removes (st : Delegate) (wc : WebContents)
    (d : gmap string Value) (path : string) :
  GetDevToolsWebContents st = Some wc →
  prefs st = Some d →
  ∃ st',
    DevToolsRemoveFileSystem path st = Some st' ∧
    prefs st' = Some (delete path d) ∧
    IsDevToolsFileSystemAdded (GetDevToolsWebContents st') path st' = Some false ∧
    (∀ other,
       other ≠ path →
       IsDevToolsFileSystemAdded (GetDevToolsWebContents st') other st' =
       IsDevToolsFileSystemAdded (GetDevToolsWebContents st) other st) ∧
    calls st' = calls st ++
      [RevokeFileSystemByPath path;
       CallClient "DevToolsAPI.fileSystemRemoved" [StringValue path]
         (dom (devtools_indexing_jobs_ st))].
Proof. apply DevToolsRemoveFileSystem_spec. Qed.

Lemma DevToolsRemoveFileSystem_removes_witness :
  ∃ st',
    DevToolsRemoveFileSystem "/tmp" sample = Some st' ∧
    prefs st' = Some (delete "/tmp" {[ "/src" := StringValue "" ]}) ∧
    IsDevToolsFileSystemAdded (GetDevToolsWebContents st') "/tmp" st' = Some false ∧
    (∀ other,
       other ≠ "/tmp" →
       IsDevToolsFileSystemAdded (GetDevToolsWebContents st') other st' =
       IsDevToolsFileSystemAdded (GetDevToolsWebContents sample) other sample) ∧
    calls st' = [] ++
      [RevokeFileSystemByPath "/tmp";
       CallClient "DevToolsAPI.fileSystemRemoved" [StringValue "/tmp"]
         (dom (devtools_indexing_jobs_ sample))].
Proof.
  apply (DevToolsRemoveFileSystem_removes sample devtools
           {[ "/src" := StringValue "" ]} "/tmp"); reflexivity.
Defined.

(** Adding a path that is not in the registry and removing it again leaves
    the persisted registry exactly as it was; the front end hears of both,
    fileSystemAdded then fileSystemRemoved. *)
Theorem add_then_remove_restores_registry (st : Delegate) (wc : WebContents)
    (d : gmap string Value) (path type : string) :
  GetDevToolsWebContents st = Some wc →
  prefs st = Some d →
  d !! path = None →
  path ≠ "" →
  ∃ st',
    run [AddFileSystem path type; RemoveFileSystem path] st = Some st' ∧
    prefs st' = prefs st ∧
    fst <$> notifications st' =
      (fst <$> notifications st) ++
      ["DevToolsAPI.fileSystemAdded"; "DevToolsAPI.fileSystemRemoved"].
Proof.
  intros Hwc Hd Hp Hne. simpl. unfold DevToolsAddFileSystem.
  rewrite decide_False by done.
  destruct (DevToolsAddFileSystemInteral_spec st wc d path type Hwc Hd)
    as (st1 & _ & Hu & _ & Hc & Hadd).
  rewrite bool_decide_eq_false_2 in Hadd by (rewrite Hp; by intros [? ?]).
  rewrite Hadd. simpl.
  pose proof (GetDevToolsWebContents_untouched _ _ Hu) as Hwc1.
  rewrite Hwc in Hwc1.
  match goal with |- context [DevToolsRemoveFileSystem path ?s] =>
    destruct (DevToolsRemoveFileSystem_spec s wc
                (<[path := StringValue type]> d) path)
      as (st' & Hrm & Hprefs & _ & _ & Hcalls); [exact Hwc1|done|]
  end.
  exists st'. split; [by rewrite Hrm|]. split.
  - rewrite Hprefs, Hd. f_equal. by apply delete_insert_id.
  - assert (notifications st1 = notifications st) as Hn.
    { eapply notifications_app_calls; [exact Hc|]. apply Forall_app.
      split; [apply registration_quiet|].
      destruct (CanReadFile _ _ _); by repeat constructor. }
    unfold notifications in *. rewrite Hcalls.
    cbn [calls record set_prefs]. rewrite !omap_app, Hn, !fmap_app.
    by rewrite <- app_assoc.
Qed.

Lemma add_then_remove_restores_registry_witness :
  ∃ st',
    run [AddFileSystem "/tmp" "snippets"; RemoveFileSystem "/tmp"] sample
      = Some st' ∧
    prefs st' = prefs sample ∧
    fst <$> notifications st' =
      (fst <$> notifications sample) ++
      ["DevToolsAPI.fileSystemAdded"; "DevToolsAPI.fileSystemRemoved"].
Proof.
  apply (add_then_remove_restores_registry sample devtools
           {[ "/src" := StringValue "" ]} "/tmp" "snippets");
    [reflexivity | reflexivity | reflexivity | discriminate].
Defined.

Lemma DevToolsIndexPath_unregistered (st : Delegate) (wc : WebContents)
    (d : gmap string Value) (request_id : Z) (path : string) :
  GetDevToolsWebContents st = Some wc →
  prefs st = Some d →
  d !! path = None →
  DevToolsIndexPath request_id path st =
    Some (record
            (CallClient "DevToolsAPI.indexingDone"
               [IntValue request_id; StringValue path]
               (dom (delete request_id (devtools_indexing_jobs_ st))))
            (set_jobs (delete request_id) st)).
Proof.
  intros Hwc Hd Hp. unfold DevToolsIndexPath.
  rewrite (IsDevToolsFileSystemAdded_Some st wc d) by done. simpl.
  rewrite bool_decide_eq_false_2 by (rewrite Hp; by intros [? ?]). simpl.
  apply OnDevToolsIndexingDone_Some. by eapply GetDevToolsWebContents_Some.
Qed.

(** Removing a file system does not stop a job that is indexing it: the
    tracker and the indexer's jobs are as before.  A DevToolsIndexPath for
    the removed path under the running request id then drops the tracker
    entry and sends indexingDone, still without Stop being called on the
    job. *)
Theorem remove_does_not_stop_indexing (st : Delegate) (wc : WebContents)
    (d : gmap string Value) (request_id : Z) (job : nat) (path : string) :
  GetDevToolsWebContents st = Some wc →
  prefs st = Some d →
  devtools_indexing_jobs_ st !! request_id = Some job →
  ∃ st1 st2,
    DevToolsRemoveFileSystem path st = Some st1 ∧
    devtools_indexing_jobs_ st1 = devtools_indexing_jobs_ st ∧
    indexer_jobs st1 = indexer_jobs st ∧
    DevToolsIndexPath request_id path st1 = Some st2 ∧
    devtools_indexing_jobs_ st2 !! request_id = None ∧
    indexer_jobs st2 = indexer_jobs st ∧
    notifications st2 = notifications st ++
      [("DevToolsAPI.fileSystemRemoved", [StringValue path]);
       ("DevToolsAPI.indexingDone", [IntValue request_id; StringValue path])].
Proof.
  intros Hwc Hd Hj.
  destruct (DevToolsRemoveFileSystem_spec st wc d path Hwc Hd)
    as (st1 & Hrm & Hprefs & _ & _ & Hcalls).
  assert (bystander st st1) as (Hw1 & _ & Hj1 & Hi1 & _)
    by (by apply (step_bystander (RemoveFileSystem path))).
  assert (GetDevToolsWebContents st1 = Some wc) as Hwc1
    by (unfold GetDevToolsWebContents in *; by rewrite Hw1).
  pose proof (DevToolsIndexPath_unregistered st1 wc (delete path d)
                request_id path Hwc1 Hprefs (lookup_delete_eq _ _)) as Hix.
  eexists st1, _. split; [done|]. split; [done|]. split; [done|].
  split; [exact Hix|]. simpl.
  split; [apply lookup_delete_eq|]. split; [done|].
  unfold notifications. simpl. rewrite Hcalls, !omap_app. simpl.
  by rewrite <- app_assoc.
Qed.

Lemma remove_does_not_stop_indexing_witness :
  ∃ st1 st2,
    DevToolsRemoveFileSystem "/src" indexing = Some st1 ∧
    devtools_indexing_jobs_ st1 = devtools_indexing_jobs_ indexing ∧
    indexer_jobs st1 = indexer_jobs indexing ∧
    DevToolsIndexPath 1 "/src" st1 = Some st2 ∧
    devtools_indexing_jobs_ st2 !! 1%Z = None ∧
    indexer_jobs st2 = indexer_jobs indexing ∧
    notifications st2 = notifications indexing ++
      [("DevToolsAPI.fileSystemRemoved", [StringValue "/src"]);
       ("DevToolsAPI.indexingDone", [IntValue 1; StringValue "/src"])].
Proof.
  apply (remove_does_not_stop_indexing indexing devtools
           {[ "/src" := StringValue "" ]} 1 0 "/src"); reflexivity.
Defined.

(** ** More on indexing *)

(** The life of a request: for a registered path and a request id that is
    not being indexed, DevToolsIndexPath sends nothing and hands the indexer
    one job; the job's callbacks send indexingTotalWorkCalculated,
    indexingWorked and indexingDone with the request id and path bound at
    the start; after the last the tracker is as it was before the request,
    so the id can be used again. *)
Theorem indexing_life_cycle (st : Delegate) (wc : WebContents)
    (d : gmap string Value) (request_id : Z) (path : string)
    (total_work worked : Z) :
  GetDevToolsWebContents st = Some wc →
  prefs st = Some d →
  is_Some (d !! path) →
  devtools_indexing_jobs_ st !! request_id = None →
  let job := length (indexer_jobs st) in
  ∃ st1 st',
    DevToolsIndexPath request_id path st = Some st1 ∧
    calls st1 = calls st ∧
    devtools_indexing_jobs_ st1 = <[request_id := job]> (devtools_indexing_jobs_ st) ∧
    indexer_jobs st1 =
      indexer_jobs st ++ [Build_FileSystemIndexingJob request_id path false] ∧
    run [TotalWorkCalculated job total_work; Worked job worked; Done job] st1
      = Some st' ∧
    notifications st' = notifications st ++
      [("DevToolsAPI.indexingTotalWorkCalculated",
        [IntValue request_id; StringValue path; IntValue total_work]);
       ("DevToolsAPI.indexingWorked",
        [IntValue request_id; StringValue path; IntValue worked]);
       ("DevToolsAPI.indexingDone", [IntValue request_id; StringValue path])] ∧
    devtools_indexing_jobs_ st' = devtools_indexing_jobs_ st.
Proof.
  intros Hwc Hd Hp Hj job.
  pose proof (GetDevToolsWebContents_Some _ _ Hwc) as [w Hw].
  unfold DevToolsIndexPath.
  rewrite (IsDevToolsFileSystemAdded_Some st wc d) by done. simpl.
  rewrite bool_decide_eq_true_2 by done. simpl.
  rewrite decide_False by (rewrite Hj; by intros [? ?]). simpl.
  eexists _, _. split; [reflexivity|]. simpl.
  repeat (split; [done|]).
  rewrite list_lookup_middle by done. simpl.
  unfold OnDevToolsIndexingWorkCalculated, CallClientFunction. simpl.
  rewrite Hw. simpl. rewrite list_lookup_middle by done. simpl.
  unfold OnDevToolsIndexingWorked, CallClientFunction. simpl.
  rewrite Hw. simpl. rewrite list_lookup_middle by done. simpl.
  unfold OnDevToolsIndexingDone, CallClientFunction. simpl.
  rewrite Hw. simpl. split; [reflexivity|]. simpl. split.
  - unfold notifications. simpl. rewrite <- !app_assoc, omap_app. done.
  - by apply delete_insert_id.
Qed.

Lemma indexing_life_cycle_witness :
  ∃ st1 st',
    DevToolsIndexPath 1 "/src" sample = Some st1 ∧
    calls st1 = calls sample ∧
    devtools_indexing_jobs_ st1 = <[1%Z := 0]> (devtools_indexing_jobs_ sample) ∧
    indexer_jobs st1 =
      indexer_jobs sample ++ [Build_FileSystemIndexingJob 1 "/src" false] ∧
    run [TotalWorkCalculated 0 10; Worked 0 4; Done 0] st1 = Some st' ∧
    notifications st' = notifications sample ++
      [("DevToolsAPI.indexingTotalWorkCalculated",
        [IntValue 1; StringValue "/src"; IntValue 10]);
       ("DevToolsAPI.indexingWorked",
        [IntValue 1; StringValue "/src"; IntValue 4]);
       ("DevToolsAPI.indexingDone", [IntValue 1; StringValue "/src"])] ∧
    devtools_indexing_jobs_ st' = devtools_indexing_jobs_ sample.
Proof.
  apply (indexing_life_cycle sample devtools {[ "/src" := StringValue "" ]}
           1 "/src" 10 4); [reflexivity | reflexivity | | reflexivity].
  vm_compute. eauto.
Defined.

(** Stopping twice is stopping once; in particular DevToolsStopIndexing for
    a request id that is not being indexed changes nothing. *)
Theorem stop_indexing_idempotent (st : Delegate) (request_id : Z) :
  run [StopIndexing request_id; StopIndexing request_id] st =
  run [StopIndexing request_id] st ∧
  (devtools_indexing_jobs_ st !! request_id = None →
   DevToolsStopIndexing request_id st = Some st).
Proof.
  split.
  - simpl. unfold DevToolsStopIndexing.
    destruct (devtools_indexing_jobs_ st !! request_id) as [job|] eqn:Hj; simpl.
    + by rewrite lookup_delete_eq.
    + by rewrite Hj.
  - intros Hj. unfold DevToolsStopIndexing. by rewrite Hj.
Qed.

Lemma stop_indexing_idempotent_witness :
  DevToolsStopIndexing 5 indexing = Some indexing.
Proof.
  apply (proj2 (stop_indexing_idempotent indexing 5)). reflexivity.
Defined.

(** ** Searching *)

(** DevToolsSearchInPath on a path that is not in the registry answers at
    once with searchCompleted and an empty list of files, and asks the
    indexer for nothing.  On a registered path it sends nothing and hands
    the indexer one search; when that search completes, searchCompleted
    carries the request id and path bound at the start and the files found,
    in the indexer's order.  Neither touches the indexing tracker. *)
Theorem search_in_path (st : Delegate) (wc : WebContents)
    (d : gmap string Value) (request_id : Z) (path query : string) :
  GetDevToolsWebContents st = Some wc →
  prefs st = Some d →
  (d !! path = None →
   DevToolsSearchInPath request_id path query st =
     Some (record
             (CallClient "DevToolsAPI.searchCompleted"
                [IntValue request_id; StringValue path; ListValue []]
                (dom (devtools_indexing_jobs_ st))) st)) ∧
  (is_Some (d !! path) →
   ∀ file_paths,
     ∃ st1 st',
       DevToolsSearchInPath request_id path query st = Some st1 ∧
       calls st1 = calls st ∧
       searches st1 = searches st ++ [Build_PendingSearch request_id path query] ∧
       step (SearchCompleted (length (searches st)) file_paths) st1 = Some st' ∧
       searches st' = searches st ∧
       devtools_indexing_jobs_ st' = devtools_indexing_jobs_ st ∧
       calls st' = calls st ++
         [CallClient "DevToolsAPI.searchCompleted"
            [IntValue request_id; StringValue path;
             ListValue (StringValue <$> file_paths)]
            (dom (devtools_indexing_jobs_ st))]).
Proof.
  intros Hwc Hd. pose proof (GetDevToolsWebContents_Some _ _ Hwc) as Hw.
  split.
  - intros Hp. unfold DevToolsSearchInPath.
    rewrite (IsDevToolsFileSystemAdded_Some st wc d) by done. simpl.
    rewrite bool_decide_eq_false_2 by (rewrite Hp; by intros [? ?]). simpl.
    unfold OnDevToolsSearchCompleted. by rewrite CallClientFunction_Some.
  - intros Hp file_paths. unfold DevToolsSearchInPath.
    rewrite (IsDevToolsFileSystemAdded_Some st wc d) by done. simpl.
    rewrite bool_decide_eq_true_2 by done. simpl.
    eexists _, _. split; [reflexivity|]. simpl.
    split; [done|]. split; [done|].
    rewrite list_lookup_middle by done. simpl.
    unfold OnDevToolsSearchCompleted.
    rewrite CallClientFunction_Some by done.
    split; [reflexivity|]. simpl.
    split; [by rewrite delete_middle, app_nil_r|]. done.
Qed.

Lemma search_in_path_witness :
  DevToolsSearchInPath 3 "/tmp" "TODO" sample =
    Some (record
            (CallClient "DevToolsAPI.searchCompleted"
               [IntValue 3; StringValue "/tmp"; ListValue []]
               (dom (devtools_indexing_jobs_ sample))) sample).
Proof.
  apply (proj1 (search_in_path sample devtools {[ "/src" := StringValue "" ]}
                  3 "/tmp" "TODO" eq_refl eq_refl)).
  reflexivity.
Defined.

(** ** Saving and appending *)

(** A whole save: a path is selected in the save-as picker of a url, the
    posted write runs and its reply comes back, then content is appended.
    The first selected path is written with the content the Save was called
    with, savedURL follows the write, the append goes to the same path and
    appendedToURL follows it; the url stays mapped to that path. *)
Theorem save_then_append (st : Delegate) (picker : nat)
    (url content path more : string) (rest : list string) :
  is_Some (web_contents_ st) →
  pickers st !! picker = Some (SaveAsPicker url content) →
  file_tasks st = [] →
  replies st = [] →
  ∃ st',
    run [FilesSelected picker (path :: rest); FileTaskRuns; ReplyRuns;
         AppendToFile url more; FileTaskRuns; ReplyRuns] st = Some st' ∧
    calls st' = calls st ++
      [WriteFile path content;
       CallClient "DevToolsAPI.savedURL" [StringValue url]
         (dom (devtools_indexing_jobs_ st));
       AppendFile path more;
       CallClient "DevToolsAPI.appendedToURL" [StringValue url]
         (dom (devtools_indexing_jobs_ st))] ∧
    saved_files_ st' !! url = Some path ∧
    file_tasks st' = [] ∧
    replies st' = [].
Proof.
  intros [w Hw] Hp Ht Hr.
  set (st1 := PostTaskAndReply (WriteToFileTask path content)
                (OnDevToolsSaveToFileReply url)
                (set_saved_files <[url := path]> (set_pickers (delete picker) st))).
  assert (step (FilesSelected picker (path :: rest)) st = Some st1) as H1.
  { cbn [step]. rewrite Hp. reflexivity. }
  set (st2 := set_replies (λ q, q ++ [OnDevToolsSaveToFileReply url])
                (record (WriteFile path content)
                   (set_file_tasks (λ _, []) st1))).
  assert (step FileTaskRuns st1 = Some st2) as H2.
  { cbn [step]. unfold st1 at 1. cbn [file_tasks PostTaskAndReply set_file_tasks
      set_saved_files set_pickers]. rewrite Ht. reflexivity. }
  set (st3 := record (CallClient "DevToolsAPI.savedURL" [StringValue url]
                        (dom (devtools_indexing_jobs_ st)))
                (set_replies (λ _, []) st2)).
  assert (step ReplyRuns st2 = Some st3) as H3.
  { cbn [step]. unfold st2 at 1, st1 at 1.
    cbn [replies set_replies record set_file_tasks PostTaskAndReply
         set_saved_files set_pickers]. rewrite Hr.
    cbn [app run_reply]. unfold OnDevToolsSaveToFile.
    rewrite CallClientFunction_Some by (cbn; eauto). reflexivity. }
  set (st4 := PostTaskAndReply (AppendToFileTask path more)
                (OnDevToolsAppendToFileReply url) st3).
  assert (step (AppendToFile url more) st3 = Some st4) as H4.
  { cbn [step]. unfold DevToolsAppendToFile.
    assert (saved_files_ st3 !! url = Some path) as ->
      by (cbn; apply lookup_insert_eq).
    reflexivity. }
  set (st5 := set_replies (λ q, q ++ [OnDevToolsAppendToFileReply url])
                (record (AppendFile path more)
                   (set_file_tasks (λ _, []) st4))).
  assert (step FileTaskRuns st4 = Some st5) as H5 by reflexivity.
  set (st6 := record (CallClient "DevToolsAPI.appendedToURL" [StringValue url]
                        (dom (devtools_indexing_jobs_ st)))
                (set_replies (λ _, []) st5)).
  assert (step ReplyRuns st5 = Some st6) as H6.
  { cbn [step]. assert (replies st5 = [OnDevToolsAppendToFileReply url]) as ->
      by reflexivity.
    cbn [run_reply]. unfold OnDevToolsAppendToFile.
    rewrite CallClientFunction_Some by (cbn; eauto). reflexivity. }
  exists st6. split.
  { cbn [run]. rewrite H1. cbn [mbind option_bind]. rewrite H2.
    cbn [mbind option_bind]. rewrite H3. cbn [mbind option_bind]. rewrite H4.
    cbn [mbind option_bind]. rewrite H5. cbn [mbind option_bind]. rewrite H6.
    reflexivity. }
  split; [cbn; by rewrite <- !app_assoc|].
  split; [cbn; apply lookup_insert_eq|]. done.
Qed.

Lemma save_then_append_witness :
  ∃ st',
    run [FilesSelected 0 ["/tmp/a.txt"]; FileTaskRuns; ReplyRuns;
         AppendToFile "a.txt" " world"; FileTaskRuns; ReplyRuns]
      (FileEntryPicker (SaveAsPicker "a.txt" "hello") sample) = Some st' ∧
    calls st' = [] ++
      [WriteFile "/tmp/a.txt" "hello";
       CallClient "DevToolsAPI.savedURL" [StringValue "a.txt"] (dom (∅ : gmap Z nat));
       AppendFile "/tmp/a.txt" " world";
       CallClient "DevToolsAPI.appendedToURL" [StringValue "a.txt"]
         (dom (∅ : gmap Z nat))] ∧
    saved_files_ st' !! "a.txt" = Some "/tmp/a.txt" ∧
    file_tasks st' = [] ∧
    replies st' = [].
Proof.
  apply (save_then_append
           (FileEntryPicker (SaveAsPicker "a.txt" "hello") sample) 0
           "a.txt" "hello" "/tmp/a.txt" " world" []);
    [simpl; eauto | reflexivity | reflexivity | reflexivity].
Defined.

(** ** Adding a file system *)

(** Adding through the folder picker is adding directly: opening the picker
    with an empty path and selecting a folder does what
    DevToolsAddFileSystemInteral does for the first selected path with the
    type given when the picker was opened; and DevToolsAddFileSystem with a
    path that is not empty opens no picker. *)
Theorem add_through_picker (st : Delegate) (path type : string)
    (rest : list string) :
  run [AddFileSystem "" type;
       FilesSelected (length (pickers st)) (path :: rest)] st
    = DevToolsAddFileSystemInteral path type st ∧
  (path ≠ "" →
   DevToolsAddFileSystem path type st = DevToolsAddFileSystemInteral path type st).
Proof.
  split.
  - simpl. unfold DevToolsAddFileSystem. simpl.
    rewrite list_lookup_middle by done. simpl.
    rewrite set_pickers_open_close. unfold OnAddFileSelected. simpl.
    by destruct (DevToolsAddFileSystemInteral path type st).
  - intros Hne. unfold DevToolsAddFileSystem. by rewrite decide_False.
Qed.

Lemma add_through_picker_witness :
  DevToolsAddFileSystem "/tmp" "" sample =
  DevToolsAddFileSystemInteral "/tmp" "" sample.
Proof.
  apply (proj2 (add_through_picker sample "/tmp" "" [])). discriminate.
Defined.

(** Adding a path that is not in the registry: the path is registered with
    the isolated context and the renderer granted its capabilities first;
    then the registry maps the path to the type, kept as a string, and one
    fileSystemAdded notification describes the file system by type, name,
    root URL and path. *)
Theorem add_new_file_system (st : Delegate) (wc : WebContents)
    (d : gmap string Value) (path type : string) :
  GetDevToolsWebContents st = Some wc →
  prefs st = Some d →
  d !! path = None →
  let file_system_id := length (isolated st) in
  ∃ st',
    DevToolsAddFileSystemInteral path type st = Some st' ∧
    prefs st' = Some (<[path := StringValue type]> d) ∧
    isolated st' = isolated st ++ [Some path] ∧
    calls st' = calls st ++
      registration (renderer_id wc) path file_system_id ++
      (if CanReadFile (renderer_id wc) path st then []
       else [GrantReadFile (renderer_id wc) path]) ++
      [CallClient "DevToolsAPI.fileSystemAdded"
         [DictionaryValue
            [("type", StringValue type);
             ("fileSystemName",
              StringValue (GetIsolatedFileSystemName (origin wc) file_system_id));
             ("rootURL",
              StringValue (GetIsolatedFileSystemRootURIString (origin wc)
                             file_system_id kRootName));
             ("fileSystemPath", StringValue path)]]
         (dom (devtools_indexing_jobs_ st))].
Proof.
  intros Hwc Hd Hp id.
  destruct (DevToolsAddFileSystemInteral_spec st wc d path type Hwc Hd)
    as (st1 & _ & Hu & Hi & Hc & Hadd).
  rewrite bool_decide_eq_false_2 in Hadd by (rewrite Hp; by intros [? ?]).
  eexists. split; [exact Hadd|]. simpl. split; [done|]. split; [done|].
  by rewrite Hc, <- !app_assoc.
Qed.

Lemma add_new_file_system_witness :
  ∃ st',
    DevToolsAddFileSystemInteral "/tmp" "snippets" sample = Some st' ∧
    prefs st' =
      Some (<["/tmp" := StringValue "snippets"]> {[ "/src" := StringValue "" ]}) ∧
    isolated st' = [Some "/tmp"] ∧
    calls st' = [] ++
      registration 7 "/tmp" 0 ++ [GrantReadFile 7 "/tmp"] ++
      [CallClient "DevToolsAPI.fileSystemAdded"
         [DictionaryValue
            [("type", StringValue "snippets");
             ("fileSystemName",
              StringValue (GetIsolatedFileSystemName (origin devtools) 0));
             ("rootURL",
              StringValue (GetIsolatedFileSystemRootURIString (origin devtools)
                             0 kRootName));
             ("fileSystemPath", StringValue "/tmp")]]
         (dom (devtools_indexing_jobs_ sample))].
Proof.
  apply (add_new_file_system sample devtools {[ "/src" := StringValue "" ]}
           "/tmp" "snippets"); reflexivity.
Defined.

(** RegisterFileSystem grants read access to the path itself only when the
    renderer lacks it: registering the same path a second time mints the
    next identifier and grants the four file-system capabilities on it, but
    does not grant read on the path again. *)
Theorem register_twice (st : Delegate) (wc : WebContents) (path : string) :
  ∃ st1 st2,
    RegisterFileSystem (Some wc) path st = Some (length (isolated st), st1) ∧
    RegisterFileSystem (Some wc) path st1 = Some (S (length (isolated st)), st2) ∧
    CanReadFile (renderer_id wc) path st1 = true ∧
    calls st2 = calls st1 ++
      registration (renderer_id wc) path (S (length (isolated st))).
Proof.
  destruct (RegisterFileSystem_spec wc path st) as (st1 & Hr1 & Hu1 & Hi1 & Hc1).
  destruct (RegisterFileSystem_spec wc path st1) as (st2 & Hr2 & Hu2 & Hi2 & Hc2).
  assert (CanReadFile (renderer_id wc) path st1 = true) as Hcan.
  { revert Hr1. unfold RegisterFileSystem, CanReadFile. simpl.
    destruct (bool_decide ((renderer_id wc, path) ∈ read_grants st)) eqn:Hb;
      intros [= <-]; simpl.
    - exact Hb.
    - apply bool_decide_eq_true_2, elem_of_app. right. by left. }
  exists st1, st2. split; [done|].
  rewrite Hi1, length_app, Nat.add_1_r in Hr2, Hc2.
  split; [done|]. split; [done|].
  by rewrite Hc2, Hcan, app_nil_r.
Qed.

(** ** Requesting the file systems *)

Lemma register_each_lists file_system_paths :
  ∀ st file_systems st',
    register_each file_system_paths st = Some (file_systems, st') →
    file_system_path <$> file_systems = file_system_paths.*1 ∧
    length (isolated st') = (length (isolated st) + length file_system_paths)%nat.
Proof.
  induction file_system_paths as [|[p t] rest IH]; simpl; intros st fss st' H.
  - injection H as <- <-. split; [done|lia].
  - destruct (GetDevToolsWebContents st) as [wc|] eqn:Hwc; [|done].
    destruct (RegisterFileSystem_spec wc p st) as (st1 & Hr & Hu & Hi & _).
    rewrite Hr in H. simpl in H.
    destruct (CreateFileSystemStruct _ _ _ _) as [fs|] eqn:Hfs; [|done].
    simpl in H.
    destruct (register_each rest st1) as [[fss1 st2]|] eqn:He; [|done].
    simpl in H. injection H as <- <-.
    destruct (IH _ _ _ He) as [Hpaths Hlen]. split.
    + rewrite !fmap_cons, Hpaths. f_equal.
      unfold CreateFileSystemStruct in Hfs.
      destruct (GetDevToolsWebContents st1); [|done]. by injection Hfs as <-.
    + rewrite Hlen, Hi, length_app. simpl. lia.
Qed.

Lemma key_le_total : Total key_le.
Proof.
  intros x y. unfold key_le.
  destruct (String.leb_total x.1 y.1) as [H|H]; rewrite H; [by left|by right].
Qed.

Lemma register_each_entries file_system_paths :
  ∀ st file_systems st',
    register_each file_system_paths st = Some (file_systems, st') →
    omap listed (CreateFileSystemValue <$> file_systems) = file_system_paths.
Proof.
  induction file_system_paths as [|[p t] rest IH]; simpl; intros st fss st' H.
  - by injection H as <- <-.
  - destruct (GetDevToolsWebContents st) as [wc|] eqn:Hwc; [|done].
    destruct (RegisterFileSystem_spec wc p st) as (st1 & Hr & Hu & Hi & _).
    rewrite Hr in H. simpl in H.
    destruct (CreateFileSystemStruct _ _ _ _) as [fs|] eqn:Hfs; [|done].
    simpl in H.
    destruct (register_each rest st1) as [[fss1 st2]|] eqn:He; [|done].
    simpl in H. injection H as <- <-.
    unfold CreateFileSystemStruct in Hfs.
    destruct (GetDevToolsWebContents st1); [|done]. injection Hfs as <-.
    rewrite fmap_cons. cbn [omap list_omap].
    change (list_omap _ _ listed (CreateFileSystemValue <$> fss1))
      with (omap listed (CreateFileSystemValue <$> fss1)).
    rewrite (IH _ _ _ He). reflexivity.
Qed.

(** DevToolsRequestFileSystems ends with one fileSystemsLoaded whose list
    holds one dictionary per registry entry, each telling its path and type;
    the dictionaries come in ascending order of path (bytewise), each
    registered path once and no other.  The call registers as many new
    identifiers with the isolated context as the registry has entries: on
    every request, again. *)
Theorem file_systems_loaded_in_path_order (st : Delegate) (wc : WebContents)
    (d : gmap string Value) :
  GetDevToolsWebContents st = Some wc →
  prefs st = Some d →
  ∃ st' values tracked,
    DevToolsRequestFileSystems st = Some st' ∧
    last (calls st') =
      Some (CallClient "DevToolsAPI.fileSystemsLoaded" [ListValue values] tracked) ∧
    length (omap listed values) = length values ∧
    length values = size d ∧
    Sorted (λ a b : string, String.leb a b) (omap listed values).*1 ∧
    NoDup (omap listed values).*1 ∧
    (∀ path type,
       (path, type) ∈ omap listed values ↔
       ∃ v, d !! path = Some v ∧
            type = if is_string v then GetString v else "") ∧
    length (isolated st') = (length (isolated st) + size d)%nat.
Proof.
  intros Hwc Hd. unfold DevToolsRequestFileSystems.
  rewrite (GetAddedFileSystemPaths_Some st wc Hwc), Hd. simpl.
  set (listing := (λ v, if is_string v then GetString v else "") <$> d).
  pose proof (GetDevToolsWebContents_Some _ _ Hwc) as Hw.
  destruct (decide (listing = ∅)) as [Hempty|Hne].
  - apply fmap_empty_inv in Hempty. subst d.
    rewrite CallClientFunction_Some by done.
    eexists _, [], _. split; [reflexivity|]. simpl.
    split; [apply last_snoc|]. split; [done|].
    split; [by rewrite map_size_empty|].
    split; [constructor|]. split; [constructor|].
    split; [|rewrite map_size_empty; lia].
    intros path type. split; [by intros ?%elem_of_nil|].
    intros (v & Hv & _). by rewrite lookup_empty in Hv.
  - destruct (register_each (in_key_order listing) st) as [[fss st1]|] eqn:He.
    2:{ destruct (register_each_spec wc (in_key_order listing) st Hwc)
          as (? & ? & ? & ? & He' & _). congruence. }
    simpl.
    destruct (register_each_bystander _ _ _ _ He) as (Hw1 & _).
    rewrite CallClientFunction_Some by (by rewrite Hw1).
    destruct (register_each_lists _ _ _ _ He) as [Hpaths Hlen].
    pose proof (register_each_entries _ _ _ _ He) as Hentries.
    assert (in_key_order listing ≡ₚ map_to_list listing) as Hperm
      by apply merge_sort_Permutation.
    assert (length (in_key_order listing) = size d) as Hsize.
    { rewrite Hperm, length_map_to_list. unfold listing.
      by rewrite map_size_fmap. }
    eexists _, (CreateFileSystemValue <$> fss), _.
    split; [reflexivity|]. simpl.
    split; [apply last_snoc|]. rewrite Hentries.
    assert (length fss = length (in_key_order listing)) as Hfss
      by (by rewrite <- (length_fmap file_system_path fss), Hpaths, length_fmap).
    split; [by rewrite length_fmap|].
    split; [by rewrite length_fmap, Hfss|].
    split.
    { apply (Sorted_fmap fst key_le); [done|].
      apply Sorted_merge_sort, key_le_total. }
    split.
    { rewrite Hperm. apply NoDup_fst_map_to_list. }
    split; [|by rewrite Hlen, Hsize].
    intros path type. rewrite Hperm, elem_of_map_to_list.
    unfold listing. rewrite lookup_fmap. split.
    + destruct (d !! path) as [v|]; [|done]. intros [= <-]. by exists v.
    + intros (v & -> & ->). done.
Qed.

Lemma file_systems_loaded_in_path_order_witness :
  ∃ st' values tracked,
    DevToolsRequestFileSystems three_folders = Some st' ∧
    last (calls st') =
      Some (CallClient "DevToolsAPI.fileSystemsLoaded" [ListValue values] tracked) ∧
    omap listed values = [("/a", "notes"); ("/src", ""); ("/z", "")] ∧
    length values = 3 ∧
    Sorted (λ a b : string, String.leb a b) (omap listed values).*1 ∧
    NoDup (omap listed values).*1 ∧
    length (isolated st') = 3.
Proof.
  destruct (file_systems_loaded_in_path_order three_folders devtools
              (<["/z" := StringValue ""]>
                 (<["/a" := StringValue "notes"]>
                    {[ "/src" := StringValue "" ]})) eq_refl eq_refl)
    as (st' & values & tracked & Hrun & Hlast & _ & Hlen & Hsorted & Hnodup & _ & Hiso).
  exists st', values, tracked.
  assert (DevToolsRequestFileSystems three_folders ≫= (λ s, last (calls s))
          = Some (CallClient "DevToolsAPI.fileSystemsLoaded" [ListValue values]
                    tracked)) as Hsame
    by (by rewrite Hrun).
  vm_compute in Hsame. injection Hsame as Hvalues _.
  split; [exact Hrun|]. split; [exact Hlast|].
  split; [by rewrite <- Hvalues|].
  split; [exact Hlen|]. split; [exact Hsorted|]. split; [exact Hnodup|exact Hiso].
Defined.

(** The order is that of the paths, not that of adding them. *)
Example file_systems_loaded_sorted_sample :
  (λ st, (λ c, match c with
               | CallClient _ [ListValue l] _ =>
                   (λ v, match v with
                         | DictionaryValue [_; _; _; (_, StringValue p)] => p
                         | _ => "" end) <$> l
               | _ => [] end) <$> last (calls st))
    <$> run [AddFileSystem "/z" ""; AddFileSystem "/a" ""; RequestFileSystems]
          sample
  = Some (Some ["/a"; "/src"; "/z"]).
Proof. reflexivity. Qed.

(** ** What the front end can hear *)

Lemma speaks_refl st : speaks st st.
Proof. exists []. by rewrite app_nil_r. Qed.

Lemma speaks_trans st1 st2 st3 : speaks st1 st2 → speaks st2 st3 → speaks st1 st3.
Proof.
  intros (new1 & Hc1 & Hq1) (new2 & Hc2 & Hq2). exists (new1 ++ new2). split.
  - by rewrite Hc2, Hc1, app_assoc.
  - by apply Forall_app.
Qed.

Lemma speaks_silent st st' : calls st' = calls st → speaks st st'.
Proof. intros Hc. exists []. by rewrite app_nil_r. Qed.

Lemma speaks_record c st : in_vocabulary c = true → speaks st (record c st).
Proof. intros Hc. exists [c]. split; [done|]. by constructor. Qed.

Lemma CallClientFunction_speaks name args st st' :
  CallClientFunction name args st = Some st' →
  in_vocabulary (CallClient name args ∅) = true →
  speaks st st'.
Proof.
  unfold CallClientFunction. destruct (web_contents_ st); [|done].
  intros [= <-] Hv. by apply speaks_record.
Qed.

Lemma RegisterFileSystem_speaks web_contents path st file_system_id st' :
  RegisterFileSystem web_contents path st = Some (file_system_id, st') →
  speaks st st'.
Proof.
  destruct web_contents as [wc|]; [|done].
  destruct (RegisterFileSystem_spec wc path st) as (st1 & Hr & _ & _ & Hc).
  rewrite Hr. intros [= _ <-]. eexists. split; [exact Hc|].
  apply Forall_app. split; [by repeat constructor|].
  destruct (CanReadFile _ _ _); by repeat constructor.
Qed.

Lemma register_each_speaks file_system_paths :
  ∀ st file_systems st',
    register_each file_system_paths st = Some (file_systems, st') →
    speaks st st'.
Proof.
  induction file_system_paths as [|[path type] rest IH]; simpl.
  - intros st fss st' [= _ <-]. apply speaks_refl.
  - intros st fss st' H.
    destruct (RegisterFileSystem _ _ _) as [[id st1]|] eqn:Hr; [|done].
    simpl in H.
    destruct (CreateFileSystemStruct _ _ _ _); [|done]. simpl in H.
    destruct (register_each rest st1) as [[fss1 st2]|] eqn:He; [|done].
    simpl in H. injection H as _ <-.
    eapply speaks_trans; [by eapply RegisterFileSystem_speaks|by eapply IH].
Qed.

Lemma DevToolsAddFileSystemInteral_speaks path type st st' :
  DevToolsAddFileSystemInteral path type st = Some st' → speaks st st'.
Proof.
  unfold DevToolsAddFileSystemInteral. intros H.
  destruct (RegisterFileSystem _ _ _) as [[id st1]|] eqn:Hr; [|done].
  apply RegisterFileSystem_speaks in Hr. simpl in H.
  destruct (IsDevToolsFileSystemAdded _ _ _) as [[]|]; simpl in H; [| |done].
  - by injection H as <-.
  - destruct (CreateFileSystemStruct _ _ _ _); [|done]. simpl in H.
    destruct (GetPrefService _); [|done]. simpl in H.
    eapply speaks_trans; [exact Hr|].
    eapply speaks_trans; [|by eapply CallClientFunction_speaks].
    by apply speaks_silent.
Qed.

Lemma step_speaks ev st st' : step ev st = Some st' → speaks st st'.
Proof.
  destruct ev; cbn [step]; intros H.
  - (* SaveToFile *)
    unfold DevToolsSaveToFile in H.
    destruct (saved_files_ st !! url) as [path|]; [destruct save_as|];
      injection H as <-; by apply speaks_silent.
  - (* AppendToFile *)
    unfold DevToolsAppendToFile in H.
    destruct (saved_files_ st !! url); injection H as <-; by apply speaks_silent.
  - (* RequestFileSystems *)
    unfold DevToolsRequestFileSystems in H.
    destruct (GetAddedFileSystemPaths _ _) as [m|]; [|done]. simpl in H.
    destruct (decide (m = ∅)).
    + by eapply CallClientFunction_speaks.
    + destruct (register_each _ _) as [[fss st1]|] eqn:He; [|done]. simpl in H.
      eapply speaks_trans; [by eapply register_each_speaks|].
      by eapply CallClientFunction_speaks.
  - (* AddFileSystem *)
    unfold DevToolsAddFileSystem in H.
    destruct (decide (file_system_path0 = "")).
    + injection H as <-. by apply speaks_silent.
    + by eapply DevToolsAddFileSystemInteral_speaks.
  - (* RemoveFileSystem *)
    unfold DevToolsRemoveFileSystem in H.
    destruct (web_contents_ st) eqn:Hw; [|injection H as <-; apply speaks_refl].
    destruct (GetPrefService _); [|done]. simpl in H.
    eapply speaks_trans; [|by eapply CallClientFunction_speaks].
    eexists [_]. split; [reflexivity|]. by repeat constructor.
  - (* IndexPath *)
    unfold DevToolsIndexPath in H.
    destruct (IsDevToolsFileSystemAdded _ _ _) as [[]|]; simpl in H; [| |done].
    + destruct (decide _); injection H as <-; by apply speaks_silent.
    + unfold OnDevToolsIndexingDone in H.
      eapply speaks_trans; [|by eapply CallClientFunction_speaks].
      by apply speaks_silent.
  - (* StopIndexing *)
    unfold DevToolsStopIndexing in H.
    destruct (devtools_indexing_jobs_ st !! request_id); injection H as <-;
      by apply speaks_silent.
  - (* SearchInPath *)
    unfold DevToolsSearchInPath in H.
    destruct (IsDevToolsFileSystemAdded _ _ _) as [[]|]; simpl in H; [| |done].
    + injection H as <-. by apply speaks_silent.
    + by eapply CallClientFunction_speaks.
  - (* FileTaskRuns *)
    destruct (file_tasks st) as [|[task reply] rest]; [done|].
    injection H as <-.
    destruct task; (eexists [_]; split; [reflexivity|]; by repeat constructor).
  - (* ReplyRuns *)
    destruct (replies st) as [|reply rest]; [done|].
    destruct reply; simpl in H;
      (eapply speaks_trans; [|by eapply CallClientFunction_speaks]);
      by apply speaks_silent.
  - (* FilesSelected *)
    destruct (pickers st !! picker) as [[url content|type]|]; [| |done];
      simpl in H.
    + unfold OnSaveFileSelected in H. destruct (head paths); [|done].
      injection H as <-. by apply speaks_silent.
    + unfold OnAddFileSelected in H. destruct (head paths); [|done].
      simpl in H.
      eapply speaks_trans; [|by eapply DevToolsAddFileSystemInteral_speaks].
      by apply speaks_silent.
  - (* SelectionCancelled *)
    destruct (pickers st !! picker) as [[url content|type]|]; [| |done];
      simpl in H.
    + eapply speaks_trans; [|by eapply CallClientFunction_speaks].
      by apply speaks_silent.
    + injection H as <-. by apply speaks_silent.
  - (* TotalWorkCalculated *)
    destruct (indexer_jobs st !! job); [|done]. simpl in H.
    by eapply CallClientFunction_speaks.
  - (* Worked *)
    destruct (indexer_jobs st !! job); [|done]. simpl in H.
    by eapply CallClientFunction_speaks.
  - (* Done *)
    destruct (indexer_jobs st !! job); [|done]. simpl in H.
    unfold OnDevToolsIndexingDone in H.
    eapply speaks_trans; [|by eapply CallClientFunction_speaks].
    by apply speaks_silent.
  - (* SearchCompleted *)
    destruct (searches st !! search); [|done]. simpl in H.
    eapply speaks_trans; [|by eapply CallClientFunction_speaks].
    by apply speaks_silent.
Qed.

(** Whatever the front end requests and whatever the collaborators call
    back, every call the delegate makes to the front end is to one of the
    ten DevToolsAPI functions, with one to three arguments; and calls, once
    made, are never taken back. *)
Theorem only_DevToolsAPI_is_called (evs : list Event) :
  ∀ st st',
    run evs st = Some st' →
    ∃ new, calls st' = calls st ++ new ∧
           Forall (λ c, in_vocabulary c = true) new.
Proof.
  induction evs as [|ev evs IH]; simpl; intros st st' H.
  - injection H as <-. apply speaks_refl.
  - destruct (step ev st) as [st1|] eqn:Hs; [|done]. simpl in H.
    eapply speaks_trans; [by eapply step_speaks|by eapply IH].
Qed.

Lemma only_DevToolsAPI_is_called_witness :
  ∃ st' new,
    run [AddFileSystem "/tmp" ""; IndexPath 1 "/tmp"; SearchInPath 2 "/x" "q";
         RemoveFileSystem "/tmp"; Done 0] sample = Some st' ∧
    calls st' = calls sample ++ new ∧
    Forall (λ c, in_vocabulary c = true) new.
Proof.
  pose proof (only_DevToolsAPI_is_called
                [AddFileSystem "/tmp" ""; IndexPath 1 "/tmp";
                 SearchInPath 2 "/x" "q"; RemoveFileSystem "/tmp"; Done 0]
                sample) as H.
  destruct (run _ sample) as [st'|] eqn:Hrun;
    [|vm_compute in Hrun; discriminate Hrun].
  destruct (H st' eq_refl) as (new & Hc & Hv). by exists st', new.
Defined.

(** ** After DestroyWebContents *)



(** ** HTML fullscreen *)

(** After SetHtmlApiFullscreen, IsFullscreenForTabOrPending answers what
    was asked for, in every case; and SetFullScreen is called on the window
    with that value or not at all. *)
Theorem html_fullscreen_follows_request (enter_fullscreen : bool)
    (st : Fullscreen.Members) :
  let st' := Fullscreen.SetHtmlApiFullscreen enter_fullscreen st in
  Fullscreen.IsFullscreenForTabOrPending st' = enter_fullscreen ∧
  Fullscreen.owner_window_ st' = Fullscreen.owner_window_ st ∧
  (Fullscreen.window_calls st' = Fullscreen.window_calls st ∨
   Fullscreen.window_calls st' =
     Fullscreen.window_calls st ++ [Fullscreen.SetFullScreen enter_fullscreen]).
Proof.
  unfold Fullscreen.SetHtmlApiFullscreen, Fullscreen.IsFullscreenForTabOrPending.
  destruct st as [html native [[]|] calls], enter_fullscreen, native; simpl;
    auto.
Qed.

(** Leaving HTML fullscreen leaves the window the way entering found it.
    If the window was fullscreen already, entering and leaving never call
    SetFullScreen, whatever the window reports in between.  If it was not,
    entering calls SetFullScreen(true) and leaving calls SetFullScreen(false),
    again whatever the window reports in between.  Either way
    IsFullscreenForTabOrPending is true between the two and false after. *)
Theorem exit_undoes_enter (st : Fullscreen.Members) (was_fullscreen later : bool) :
  Fullscreen.owner_window_ st = Some was_fullscreen →
  ∃ st1 st2,
    Fullscreen.EnterFullscreenModeForTab true st = Some st1 ∧
    Fullscreen.IsFullscreenForTabOrPending st1 = true ∧
    Fullscreen.ExitFullscreenModeForTab true (Fullscreen.window_reports later st1)
      = Some st2 ∧
    Fullscreen.IsFullscreenForTabOrPending st2 = false ∧
    ∃ new,
      Fullscreen.window_calls st2 = Fullscreen.window_calls st ++ new ∧
      Fullscreen.window_changes new =
        (if was_fullscreen then [] else [true; false]).
Proof.
  intros Hw. destruct st as [html native w calls]. simpl in Hw. subst w.
  unfold Fullscreen.EnterFullscreenModeForTab,
    Fullscreen.ExitFullscreenModeForTab, Fullscreen.SetHtmlApiFullscreen.
  destruct was_fullscreen; simpl.
  - eexists _, _. split; [reflexivity|]. split; [reflexivity|]. simpl.
    split; [reflexivity|]. split; [reflexivity|]. simpl.
    eexists. rewrite <- !app_assoc. split; [reflexivity|]. reflexivity.
  - eexists _, _. split; [reflexivity|]. split; [reflexivity|]. simpl.
    split; [reflexivity|]. split; [reflexivity|]. simpl.
    eexists. rewrite <- !app_assoc. split; [reflexivity|]. reflexivity.
Qed.

Lemma exit_undoes_enter_witness :
  ∃ st1 st2,
    Fullscreen.EnterFullscreenModeForTab true Fullscreen.windowed = Some st1 ∧
    Fullscreen.IsFullscreenForTabOrPending st1 = true ∧
    Fullscreen.ExitFullscreenModeForTab true (Fullscreen.window_reports true st1)
      = Some st2 ∧
    Fullscreen.IsFullscreenForTabOrPending st2 = false ∧
    ∃ new,
      Fullscreen.window_calls st2 = Fullscreen.window_calls Fullscreen.windowed ++ new ∧
      Fullscreen.window_changes new = [true; false].
Proof.
  apply (exit_undoes_enter Fullscreen.windowed false true). reflexivity.
Defined.

(** Entering twice is not undone by leaving once: when HTML fullscreen is
    entered again on a window that reports fullscreen because of the first
    entry, the delegate takes the window for natively fullscreen, and leaving
    HTML fullscreen then never calls SetFullScreen(false), however often. *)
Theorem enter_twice_stays_fullscreen (st : Fullscreen.Members) (n : nat) :
  Fullscreen.owner_window_ st = Some false →
  ∃ st1 st2,
    Fullscreen.EnterFullscreenModeForTab true st = Some st1 ∧
    Fullscreen.EnterFullscreenModeForTab true (Fullscreen.window_reports true st1)
      = Some st2 ∧
    Fullscreen.native_fullscreen_ st2 = true ∧
    ∀ st',
      Nat.iter n (λ o, o ≫= Fullscreen.ExitFullscreenModeForTab true) (Some st2)
        = Some st' →
      Fullscreen.native_fullscreen_ st' = true ∧
      ∃ new,
        Fullscreen.window_calls st' = Fullscreen.window_calls st ++ new ∧
        Fullscreen.window_changes new = [true].
Proof.
  intros Hw. destruct st as [html native w calls]. simpl in Hw. subst w.
  eexists _, _. split; [reflexivity|]. split; [reflexivity|].
  split; [reflexivity|].
  set (leave := λ o, o ≫= Fullscreen.ExitFullscreenModeForTab true).
  match goal with |- context [Nat.iter n leave (Some ?s)] => set (st2 := s) end.
  assert (Fullscreen.native_fullscreen_ st2 = true) as Hn2 by reflexivity.
  assert (Fullscreen.owner_window_ st2 = Some true) as Ho2 by reflexivity.
  assert (Fullscreen.window_calls st2 =
            calls ++ [Fullscreen.SetFullScreen true;
                      Fullscreen.NotifyWindowEnterHtmlFullScreen;
                      Fullscreen.WasResized;
                      Fullscreen.NotifyWindowEnterHtmlFullScreen;
                      Fullscreen.WasResized]) as Hc2
    by (cbn; by rewrite <- !app_assoc).
  clearbody st2.
  assert (∀ k st', Nat.iter k leave (Some st2) = Some st' →
            Fullscreen.native_fullscreen_ st' = true ∧
            Fullscreen.owner_window_ st' = Some true ∧
            ∃ more, Fullscreen.window_calls st' = Fullscreen.window_calls st2 ++ more ∧
                    Fullscreen.window_changes more = []) as Hiter.
  { induction k as [|k IH]; simpl; intros st' H.
    - injection H as <-. split; [done|]. split; [done|].
      exists []. by rewrite app_nil_r.
    - destruct (Nat.iter k leave (Some st2)) as [stk|] eqn:Hk; [|done].
      destruct (IH stk eq_refl) as (Hn & Ho & more & Hc & Hm).
      unfold leave in H. simpl in H.
      unfold Fullscreen.ExitFullscreenModeForTab,
        Fullscreen.SetHtmlApiFullscreen in H.
      rewrite Ho, Hn in H. simpl in H. injection H as <-. simpl.
      split; [done|]. split; [done|].
      eexists. rewrite Hc, <- !app_assoc. split; [reflexivity|].
      unfold Fullscreen.window_changes in *. rewrite omap_app, Hm. done. }
  intros st' H. destruct (Hiter n st' H) as (Hn & _ & more & Hc & Hm).
  split; [done|]. eexists. rewrite Hc, Hc2, <- !app_assoc.
  split; [reflexivity|].
  unfold Fullscreen.window_changes in *. rewrite omap_app, Hm. done.
Qed.

Lemma enter_twice_stays_fullscreen_witness :
  ∃ st1 st2,
    Fullscreen.EnterFullscreenModeForTab true Fullscreen.windowed = Some st1 ∧
    Fullscreen.EnterFullscreenModeForTab true (Fullscreen.window_reports true st1)
      = Some st2 ∧
    Fullscreen.native_fullscreen_ st2 = true ∧
    ∀ st',
      Nat.iter 2 (λ o, o ≫= Fullscreen.ExitFullscreenModeForTab true) (Some st2)
        = Some st' →
      Fullscreen.native_fullscreen_ st' = true ∧
      ∃ new,
        Fullscreen.window_calls st' = Fullscreen.window_calls Fullscreen.windowed ++ new ∧
        Fullscreen.window_changes new = [true].
Proof.
  apply (enter_twice_stays_fullscreen Fullscreen.windowed 2). reflexivity.
Defined.

(** ** The IPC bindings *)

(** OnMessageReceived reports every message as not handled, also the ones
    it dispatched: [handled] starts false and no case of the message maps
    sets it. *)
Theorem OnMessageReceived_never_handled (message : Bindings.Message)
    (st : Bindings.Handler) :
  (Bindings.OnMessageReceived message st).1 = false.
Proof.
  unfold Bindings.OnMessageReceived.
  destruct (Bindings.is_valid st); [|done].
  destruct (Bindings.effective_context_type st), message; done.
Qed.

(** Which messages reach the page's ipc module.  An invalidated handler and
    a web page context emit nothing, whatever the message.  Otherwise a
    browser message is emitted once, as the channel, a new event object and
    the arguments in their order, if the script context is still valid; a
    shared-memory message is emitted only in a WebUI or blessed extension
    context and only with a valid handle, as the channel, the event object
    and the wrapped memory; anything else is dropped. *)
Theorem message_dispatch (st : Bindings.Handler) :
  (Bindings.is_valid st = false ∨
   Bindings.effective_context_type st = Bindings.WEB_PAGE_CONTEXT →
   ∀ message, Bindings.OnMessageReceived message st = (false, st)) ∧
  (Bindings.is_valid st = true →
   Bindings.effective_context_type st ≠ Bindings.WEB_PAGE_CONTEXT →
   (∀ channel args,
      (Bindings.OnMessageReceived (Bindings.AtomViewMsg_Message channel args) st).2
      = if Bindings.context_is_valid st then
          Bindings.emit
            (Bindings.StringToV8 channel :: Bindings.EmptyDictionary ::
               (Bindings.ConvertToV8 <$> args)) st
        else st) ∧
   (∀ channel handle,
      (Bindings.OnMessageReceived
         (Bindings.AtomViewMsg_Message_Shared channel handle) st).2
      = match Bindings.effective_context_type st, handle with
        | (Bindings.WEBUI_CONTEXT | Bindings.BLESSED_EXTENSION_CONTEXT), Some h =>
            Bindings.emit
              [Bindings.StringToV8 channel; Bindings.EmptyDictionary;
               Bindings.SharedMemoryWrapper h] st
        | _, _ => st
        end) ∧
   (Bindings.OnMessageReceived Bindings.OtherMessage st).2 = st).
Proof.
  split.
  - intros [Hv|Hw] message; unfold Bindings.OnMessageReceived.
    + by rewrite Hv.
    + rewrite Hw. by destruct (Bindings.is_valid st).
  - intros Hv Hw. unfold Bindings.OnMessageReceived,
      Bindings.OnBrowserMessage, Bindings.OnSharedBrowserMessage.
    rewrite Hv. simpl.
    destruct (Bindings.effective_context_type st) eqn:Ht; [done|..];
      (split;
       [intros channel args; simpl; rewrite ?Ht;
        by destruct (Bindings.context_is_valid st)
       |split;
        [intros channel [h|]; simpl; rewrite ?Hv; done
        |done]]).
Qed.

Lemma message_dispatch_witness :
  (Bindings.OnMessageReceived
     (Bindings.AtomViewMsg_Message "ping" [IntValue 1; StringValue "x"])
     Bindings.webui).2
  = Bindings.emit
      [Bindings.StringToV8 "ping"; Bindings.EmptyDictionary;
       Bindings.ConvertToV8 (IntValue 1);
       Bindings.ConvertToV8 (StringValue "x")] Bindings.webui.
Proof.
  apply (proj1 (proj2 (message_dispatch Bindings.webui) eq_refl
                  ltac:(discriminate)) "ping" [IntValue 1; StringValue "x"]).
Defined.

(** Hidden values of the global object.  With a valid handler and a render
    frame, a value that was set is the value read, other keys are not
    disturbed, and setting an empty value changes nothing; a deleted key
    reads as undefined, not as absent, and DeleteHiddenValue does that on
    the global object whatever object it is given.  With the handler
    invalidated or the frame gone, reading gives the empty value and
    setting and deleting do nothing. *)
Theorem hidden_values (st : Bindings.Handler) (key : string) :
  (Bindings.is_valid st = true →
   Bindings.render_frame st = true →
   (∀ v, Bindings.GetHiddenValue key (Bindings.SetHiddenValue key (Some v) st)
         = Some v) ∧
   (∀ v other,
      other ≠ key →
      Bindings.GetHiddenValue other (Bindings.SetHiddenValue key (Some v) st)
      = Bindings.GetHiddenValue other st) ∧
   (∀ object,
      Bindings.GetHiddenValue key (Bindings.DeleteHiddenValue object key st)
      = Some Bindings.Undefined) ∧
   (∀ object object',
      Bindings.DeleteHiddenValue object key st =
      Bindings.DeleteHiddenValue object' key st)) ∧
  Bindings.SetHiddenValue key None st = st ∧
  (Bindings.is_valid st = false ∨ Bindings.render_frame st = false →
   Bindings.GetHiddenValue key st = None ∧
   (∀ value, Bindings.SetHiddenValue key value st = st) ∧
   (∀ object, Bindings.DeleteHiddenValue object key st = st)).
Proof.
  unfold Bindings.GetHiddenValue, Bindings.SetHiddenValue,
    Bindings.DeleteHiddenValue.
  split; [|split; [done|]].
  - intros Hv Hf. rewrite Hv, Hf. simpl. rewrite Hv, Hf. simpl.
    split; [intros v; apply lookup_insert_eq|].
    split; [intros v other Hne; by apply lookup_insert_ne|].
    split; [intros _; apply lookup_insert_eq|done].
  - intros [Hv|Hf].
    + rewrite Hv. simpl. split; [done|]. split; [by intros []|done].
    + rewrite Hf, orb_true_r. split; [done|]. split; [by intros []|done].
Qed.

Lemma hidden_values_witness :
  Bindings.GetHiddenValue "ipc"
    (Bindings.SetHiddenValue "ipc" (Some (Bindings.PageValue 4)) Bindings.webui)
    = Some (Bindings.PageValue 4) ∧
  Bindings.GetHiddenValue "ipc"
    (Bindings.DeleteHiddenValue (Bindings.PageValue 9) "ipc" Bindings.webui)
    = Some Bindings.Undefined.
Proof.
  destruct (proj1 (hidden_values Bindings.webui "ipc") eq_refl eq_refl)
    as (Hset & _ & Hdel & _).
  split; [apply Hset | apply Hdel].
Defined.

(** ** Looking for the Widevine CDM *)



(** A call that says no leaves the list of codecs as it was; a call that
    says yes appends VP8 and VP9, and H264 in a build with proprietary
    codecs, sets supports_persistent_license to false, and gives the path
    of the CDM library, not of the adapter. *)
Theorem widevine_out_parameters (USE_PROPRIETARY_CODECS : bool)
    (library_beside : string → string) (adapter : option string)
    (PathExists : string → bool) (args : Widevine.Args)
    (check : Widevine.FileCheck) :
  let '(result, out, _) :=
    Widevine.IsWidevineAvailable USE_PROPRIETARY_CODECS library_beside adapter
      PathExists args check in
  if result then
    ∃ a, adapter = Some a ∧
         Widevine.cdm_path out = library_beside a ∧
         Widevine.codecs_supported out =
           Widevine.codecs_supported args ++
           [Widevine.kCodecVP8; Widevine.kCodecVP9] ++
           (if USE_PROPRIETARY_CODECS then [Widevine.kCodecH264] else []) ∧
         Widevine.supports_persistent_license out = Some false
  else
    Widevine.codecs_supported out = Widevine.codecs_supported args ∧
    Widevine.supports_persistent_license out =
      Widevine.supports_persistent_license args.
Proof.
  unfold Widevine.IsWidevineAvailable. destruct adapter as [a|]; [|done].
  destruct check; cbn [Widevine.same_check];
    try destruct (PathExists a && PathExists (library_beside a));
    cbn [Widevine.same_check]; try done;
    (exists a; split; [done|]; split; [done|]; split; [|done]);
    destruct USE_PROPRIETARY_CODECS; simpl; by rewrite <- !app_assoc.
Qed.
